(** * The sketch builder of arduino-cli: [arduino/builder/builder.go]

    A shallow embedding of [NewBuilder], [Builder.preprocess],
    [Builder.Build] and [Builder.build], together with the parts of the
    build pipeline they call, and the properties of the build
    specification that can be stated on them. *)

From stdpp Require Import gmap strings list fin_maps.

Local Open Scope string_scope.

(** ** Go errors *)

(** A Go [error] value, by what [Error()] and [Unwrap()] return for it.
    [errors_New] is [errors.New(msg)], or any error with that message that
    wraps nothing; [fmt_Errorf_w] is [fmt.Errorf(prefix + "%w", cause)];
    [wrapping_error] is an error of a type of its own, with the message its
    [Error] method returns and the error its [Unwrap] method returns, the
    one not tied to the other.  Go compares [errors.New] values by
    identity; a package-level error variable is modelled by its message. *)
Inductive error : Type :=
| errors_New (msg : string)
| fmt_Errorf_w (prefix : string) (cause : error)
| wrapping_error (msg : string) (cause : error).

Fixpoint Error (e : error) : string :=
  match e with
  | errors_New msg => msg
  | fmt_Errorf_w prefix cause => prefix ++ Error cause
  | wrapping_error msg _ => msg
  end.

(** [errors.Unwrap]. *)
Definition errors_Unwrap (e : error) : option error :=
  match e with
  | errors_New _ => None
  | fmt_Errorf_w _ cause => Some cause
  | wrapping_error _ cause => Some cause
  end.

Global Instance error_eq_dec : EqDecision error.
Proof. solve_decision. Defined.

(** [var ErrSketchCannotBeLocatedInBuildPath = errors.New(...)],
    builder.go line 34. *)
Definition ErrSketchCannotBeLocatedInBuildPath : error :=
  errors_New "sketch cannot be located in build path".

(** ** Paths and the filesystem *)

(** A [*paths.Path] that is not nil: the list of its segments. *)
Abbreviation Path := (list string).

Definition Join (p : Path) (s : string) : Path := (p ++ [s])%list.

(** [Path.Base]: the last segment. *)
Definition Base (p : Path) : string := default EmptyString (last p).

(** [Path.String]. *)
Definition Path_String (p : Path) : string :=
  foldr (fun s acc => "/" ++ s ++ acc) EmptyString p.

(** A filesystem node: a plain file with its content, or a directory with
    its entries by name. *)
#[warnings="-register-all"]
Inductive Node : Type :=
| File (content : string)
| Dir (entries : gmap string Node).

Definition IsDirNode (n : Node) : bool :=
  match n with Dir _ => true | File _ => false end.

(** The node found at path [p] below [n], if any. *)
Fixpoint fs_lookup (p : Path) (n : Node) : option Node :=
  match p with
  | [] => Some n
  | s :: p' =>
      match n with
      | Dir m => match m !! s with
                 | Some c => fs_lookup p' c
                 | None => None
                 end
      | File _ => None
      end
  end.

(** Apply [f] to the node at path [p], when there is one. *)
Fixpoint fs_alter (f : Node -> Node) (p : Path) (n : Node) : Node :=
  match p with
  | [] => f n
  | s :: p' =>
      match n with
      | Dir m => Dir (alter (fs_alter f p') s m)
      | File c => File c
      end
  end.

Definition Exist (p : Path) (fs : Node) : bool := bool_decide (is_Some (fs_lookup p fs)).
Definition NotExist (p : Path) (fs : Node) : bool := negb (Exist p fs).

Definition IsDir (p : Path) (fs : Node) : bool :=
  match fs_lookup p fs with
  | Some n => IsDirNode n
  | None => false
  end.

(** [Path.RemoveAll]: remove the entry at [p] with everything below it; no
    error when there is none.  The root cannot be removed. *)
Fixpoint RemoveAll (p : Path) (n : Node) : Node :=
  match p with
  | [] => n
  | [s] =>
      match n with
      | Dir m => Dir (delete s m)
      | File c => File c
      end
  | s :: p' =>
      match n with
      | Dir m => Dir (alter (RemoveAll p') s m)
      | File c => File c
      end
  end.

(** [Path.ReadDir]: the names of the entries of the directory at [p]. *)
Definition ReadDir (p : Path) (fs : Node) : error + list string :=
  match fs_lookup p fs with
  | Some (Dir m) => inr (map fst (map_to_list m))
  | Some (File _) => inl (errors_New "not a directory")
  | None => inl (errors_New "no such file or directory")
  end.

(** ** Libraries *)

Record Library : Type := { Name : string }.

(** ** removeUnusedCompiledLibraries *)

Definition toLibraryNames (libs : list Library) : list string := map Name libs.

(** [f.SliceContains]. *)
Definition SliceContains (l : list string) (s : string) : bool := bool_decide (s ∈ l).

(** One iteration of the loop over the entries of the libraries build
    tree: a directory whose name is not an imported library is removed
    with all it contains. *)
Definition removeIfUnused (librariesBuildPath : Path) (libraryNames : list string)
    (fs : Node) (file : string) : Node :=
  if IsDir (Join librariesBuildPath file) fs then
    if negb (SliceContains libraryNames file) then
      RemoveAll (Join librariesBuildPath file) fs
    else fs
  else fs.

(** Modelled from the spec: the body of [Builder.removeUnusedCompiledLibraries]
    is not part of the sources at hand (builder.go only calls it, line 384).
    Section 4.7: for each directory name in the libraries build tree, if the
    name is not a currently-imported library, delete that subdirectory
    recursively; non-directory entries at that level are untouched.  A
    libraries build tree that does not exist has no entry to visit, and
    [TestUnusedCompiledLibrariesRemoverLibDoesNotExist] requires the call to
    return no error then.  The entries are visited in the order [ReadDir]
    lists them. *)
Definition removeUnusedCompiledLibraries (librariesBuildPath : Path)
    (importedLibraries : list Library) (fs : Node) : Node * option error :=
  if NotExist librariesBuildPath fs then (fs, None)
  else
    match ReadDir librariesBuildPath fs with
    | inl err => (fs, Some err)
    | inr files =>
        let libraryNames := toLibraryNames importedLibraries in
        (foldl (removeIfUnused librariesBuildPath libraryNames) fs files, None)
    end.

(** ** Build properties

    [properties.Map] of go-properties-orderedmap, a dependency of the
    repository.  Only lookups are observed here, so the insertion order the
    library also keeps is left out. *)
Module properties.

Abbreviation Map := (gmap string string).

Definition NewMap : Map := ∅.

Definition Set_ (key value : string) (m : Map) : Map := <[key := value]> m.

Definition SetPath (key : string) (value : Path) (m : Map) : Map :=
  Set_ key (Path_String value) m.

Definition GetOk (key : string) (m : Map) : option string := m !! key.

(** [Get] returns the empty string for a key that is not set. *)
Definition Get (key : string) (m : Map) : string := default EmptyString (m !! key).

(** [GetPath]: nil when the key is not set or is empty; the path is kept
    as the string it is built from. *)
Definition GetPath (key : string) (m : Map) : option string :=
  match m !! key with
  | Some v => if decide (v = EmptyString) then None else Some v
  | None => None
  end.

(** Modelled from the spec: section 4.1, [merge(other)] (values from
    [other] win); the library's code is not part of the sources at hand. *)
Definition Merge (m other : Map) : Map := other ∪ m.

End properties.

(** ** The inputs of a build *)

Record Sketch : Type := {
  MainFile : Path;
  FullPath : Path
}.

(** [cores.Platform] and [cores.PlatformRelease], as far as builder.go
    reads them: a release points to its platform, and the pointer may be
    nil. *)
Record Platform : Type := { Architecture : string }.

Record PlatformRelease : Type := { pr_Platform : option Platform }.

Abbreviation LibrariesManager := (list Library).
Abbreviation LibrariesResolver := (list Library).

Record SketchLibrariesDetector : Type := {
  det_librariesManager : LibrariesManager;
  det_librariesResolver : LibrariesResolver;
  det_useCachedLibrariesResolution : bool;
  det_onlyUpdateCompilationDatabase : bool
}.

Definition NewSketchLibrariesDetector (lm : LibrariesManager) (lr : LibrariesResolver)
    (useCachedLibrariesResolution onlyUpdateCompilationDatabase : bool)
    : SketchLibrariesDetector :=
  {| det_librariesManager := lm;
     det_librariesResolver := lr;
     det_useCachedLibrariesResolution := useCachedLibrariesResolution;
     det_onlyUpdateCompilationDatabase := onlyUpdateCompilationDatabase |}.

Record BuildOptionsManager : Type := {
  bom_hardwareDirs : list Path;
  bom_builtInToolsDirs : list Path;
  bom_otherLibrariesDirs : list Path;
  bom_builtInLibrariesDirs : option Path;
  bom_buildPath : Path;
  bom_sketch : Sketch;
  bom_customBuildProperties : list string;
  bom_fqbn : string;
  bom_clean : bool;
  bom_compilerOptimizationFlags : string;
  bom_runtimePlatformPath : option string;
  bom_buildCorePath : option string
}.

Definition NewBuildOptionsManager
    (hardwareDirs builtInToolsDirs otherLibrariesDirs : list Path)
    (builtInLibrariesDirs : option Path) (buildPath : Path) (sk : Sketch)
    (customBuildProperties : list string) (fqbn : string) (clean : bool)
    (compilerOptimizationFlags : string)
    (runtimePlatformPath buildCorePath : option string) : BuildOptionsManager :=
  {| bom_hardwareDirs := hardwareDirs;
     bom_builtInToolsDirs := builtInToolsDirs;
     bom_otherLibrariesDirs := otherLibrariesDirs;
     bom_builtInLibrariesDirs := builtInLibrariesDirs;
     bom_buildPath := buildPath;
     bom_sketch := sk;
     bom_customBuildProperties := customBuildProperties;
     bom_fqbn := fqbn;
     bom_clean := clean;
     bom_compilerOptimizationFlags := compilerOptimizationFlags;
     bom_runtimePlatformPath := runtimePlatformPath;
     bom_buildCorePath := buildCorePath |}.

(** The [Builder] struct.  [buildPath] and [sketch] are the pointers
    [NewBuilder] was given; it dereferences both before it builds the
    struct, so they are not nil here.  The logger, the progress counter and
    the fields no function below reads are left out. *)
Record Builder : Type := {
  sketch : Sketch;
  buildProperties : properties.Map;
  buildPath : Path;
  sketchBuildPath : Path;
  coreBuildPath : Path;
  librariesBuildPath : Path;
  jobs : Z;
  customBuildProperties : list string;
  coreBuildCachePath : option Path;
  clean : bool;
  sourceOverrides : gmap string string;
  onlyUpdateCompilationDatabase : bool;
  compilationDatabase : option Path;
  targetPlatform : option PlatformRelease;
  actualPlatform : option PlatformRelease;
  libsDetector : SketchLibrariesDetector;
  buildOptionsManager : BuildOptionsManager
}.

(** The parameters of [NewBuilder], by their names in builder.go lines
    100-120; a pointer that may be nil is an [option]. *)
Record NewBuilderArgs : Type := {
  arg_sk : option Sketch;
  arg_boardBuildProperties : option properties.Map;
  arg_buildPath : option Path;
  arg_optimizeForDebug : bool;
  arg_coreBuildCachePath : option Path;
  arg_jobs : Z;
  arg_requestBuildProperties : list string;
  arg_hardwareDirs : list Path;
  arg_builtInToolsDirs : list Path;
  arg_otherLibrariesDirs : list Path;
  arg_builtInLibrariesDirs : option Path;
  arg_fqbn : string;
  arg_clean : bool;
  arg_sourceOverrides : gmap string string;
  arg_onlyUpdateCompilationDatabase : bool;
  arg_targetPlatform : option PlatformRelease;
  arg_actualPlatform : option PlatformRelease;
  arg_useCachedLibrariesResolution : bool;
  arg_librariesManager : option LibrariesManager;
  arg_libraryDirs : list Path
}.

(** ** The state a build runs in *)

(** What the build reads and writes: the filesystem and the libraries the
    detector has imported so far. *)
Record Sys : Type := {
  fs : Node;
  importedLibraries : list Library
}.

(** The calls [preprocess], [Build] and [build] make, in the order of their
    first use in builder.go. *)
Inductive Step : Type :=
| MkdirAll
| WipeBuildPath
| RunRecipe (prefix suffix : string) (flag : bool)
| prepareSketchBuildPath
| FindIncludes
| warnAboutArchIncompatibleLibraries
| preprocessSketch
| ReadFile_preprocessedSketch
| WriteStdout
| PrintUsedAndNotUsedLibraries (sketchError : bool)
| printUsedLibraries
| exportProjectCMake
| size
| BuildSketch
| removeUnusedCompiledLibraries_
| buildLibraries
| buildCore
| link
| MergeSketchWithBootloader
| SaveToFile.

Global Instance Step_eq_dec : EqDecision Step.
Proof. solve_decision. Defined.

(** ** The collaborators that are not in builder.go

    What the functions of other packages return is not fixed by
    builder.go: every statement below holds for all of them. *)
Record Env : Type := {
  (** [properties.LoadFromSlice] *)
  LoadFromSlice : list string -> error + properties.Map;
  (** [Path.Abs] *)
  Abs : Path -> error + Path;
  (** [Path.Canonical] *)
  Canonical : Path -> Path;
  (** [detector.LibrariesLoader] *)
  LibrariesLoader : bool -> option LibrariesManager -> option Path -> list Path ->
                    list Path -> option PlatformRelease -> option PlatformRelease ->
                    error + (LibrariesManager * LibrariesResolver * string);
  (** the canonical JSON of the inputs the build options manager watches *)
  buildOptionsJSON : BuildOptionsManager -> string;
  (** a call of the builder into another file or package: what it does to
      the system and the error it returns *)
  exec : Builder -> Step -> Sys -> Sys * option error
}.

(** ** NewBuilder *)

(** What a Go call yields: its value, its error, or a panic (a nil pointer
    dereference). *)
Inductive result (A : Type) : Type :=
| Returns (a : A)
| ReturnsErr (e : error)
| Panics.
Arguments Returns {A} a.
Arguments ReturnsErr {A} e.
Arguments Panics {A}.

(** Lines 121-141: the properties of the board, then the keys [NewBuilder]
    sets itself. *)
Definition initialBuildProperties (a : NewBuilderArgs) : properties.Map :=
  let buildProperties := properties.NewMap in
  let buildProperties :=
    match arg_boardBuildProperties a with
    | Some boardBuildProperties => properties.Merge buildProperties boardBuildProperties
    | None => buildProperties
    end in
  let buildProperties :=
    match arg_buildPath a with
    | Some buildPath => properties.SetPath "build.path" buildPath buildProperties
    | None => buildProperties
    end in
  let buildProperties :=
    match arg_sk a with
    | Some sk =>
        properties.SetPath "build.source.path" (FullPath sk)
          (properties.Set_ "build.project_name" (Base (MainFile sk)) buildProperties)
    | None => buildProperties
    end in
  if arg_optimizeForDebug a then
    match properties.GetOk "compiler.optimization_flags.debug" buildProperties with
    | Some debugFlags => properties.Set_ "compiler.optimization_flags" debugFlags buildProperties
    | None => buildProperties
    end
  else
    match properties.GetOk "compiler.optimization_flags.release" buildProperties with
    | Some releaseFlags => properties.Set_ "compiler.optimization_flags" releaseFlags buildProperties
    | None => buildProperties
    end.

(** Lines 100-223.  The logger and the progress counter (lines 168-170 and
    180-182) have no part in what is returned. *)
Definition NewBuilder (env : Env) (a : NewBuilderArgs) : result Builder :=
  let buildProperties := initialBuildProperties a in
  match LoadFromSlice env (arg_requestBuildProperties a) with
  | inl err => ReturnsErr (fmt_Errorf_w "invalid build properties: " err)
  | inr customBuildProperties =>
    let buildProperties := properties.Merge buildProperties customBuildProperties in
    let customBuildPropertiesArgs :=
      (arg_requestBuildProperties a ++ ["build.warn_data_percentage=75"])%list in
    match arg_buildPath a with
    | None => Panics
    | Some buildPath =>
      match Abs env (Join buildPath "sketch") with
      | inl err => ReturnsErr err
      | inr sketchBuildPath =>
        match Abs env (Join buildPath "libraries") with
        | inl err => ReturnsErr err
        | inr librariesBuildPath =>
          match Abs env (Join buildPath "core") with
          | inl err => ReturnsErr err
          | inr coreBuildPath =>
            match arg_sk a with
            | None => Panics
            | Some sk =>
              if bool_decide (Canonical env buildPath = Canonical env (FullPath sk)) then
                ReturnsErr ErrSketchCannotBeLocatedInBuildPath
              else
                match LibrariesLoader env (arg_useCachedLibrariesResolution a)
                        (arg_librariesManager a) (arg_builtInLibrariesDirs a)
                        (arg_libraryDirs a) (arg_otherLibrariesDirs a)
                        (arg_actualPlatform a) (arg_targetPlatform a) with
                | inl err => ReturnsErr err
                | inr (libsManager, libsResolver, verboseOut) =>
                  Returns
                    {| sketch := sk;
                       buildProperties := buildProperties;
                       buildPath := buildPath;
                       sketchBuildPath := sketchBuildPath;
                       coreBuildPath := coreBuildPath;
                       librariesBuildPath := librariesBuildPath;
                       jobs := arg_jobs a;
                       customBuildProperties := customBuildPropertiesArgs;
                       coreBuildCachePath := arg_coreBuildCachePath a;
                       clean := arg_clean a;
                       sourceOverrides := arg_sourceOverrides a;
                       onlyUpdateCompilationDatabase := arg_onlyUpdateCompilationDatabase a;
                       compilationDatabase := Some (Join buildPath "compile_commands.json");
                       targetPlatform := arg_targetPlatform a;
                       actualPlatform := arg_actualPlatform a;
                       libsDetector :=
                         NewSketchLibrariesDetector libsManager libsResolver
                           (arg_useCachedLibrariesResolution a)
                           (arg_onlyUpdateCompilationDatabase a);
                       buildOptionsManager :=
                         NewBuildOptionsManager
                           (arg_hardwareDirs a) (arg_builtInToolsDirs a)
                           (arg_otherLibrariesDirs a) (arg_builtInLibrariesDirs a)
                           buildPath sk customBuildPropertiesArgs (arg_fqbn a)
                           (arg_clean a)
                           (properties.Get "compiler.optimization_flags" buildProperties)
                           (properties.GetPath "runtime.platform.path" buildProperties)
                           (properties.GetPath "build.core.path" buildProperties) |}
                end
            end
          end
        end
      end
    end
  end.

(** The keys lines 126-132 set, whatever the board says. *)
Definition keysSetByNewBuilder : list string :=
  [ "build.path"; "build.project_name"; "build.source.path" ].

(** The key lines 133-141 copy to compiler.optimization_flags when it is
    set. *)
Definition optimizationFlagsKey (optimizeForDebug : bool) : string :=
  if optimizeForDebug then "compiler.optimization_flags.debug"
  else "compiler.optimization_flags.release".

(** [Builder.GetBuildProperties], lines 226-228. *)
Definition GetBuildProperties (b : Builder) : properties.Map := buildProperties b.

(** ** Running the steps of a build *)

(** One call as it happened: the system before and after it, and the error
    it returned. *)
Record Entry : Type := {
  e_step : Step;
  e_before : Sys;
  e_after : Sys;
  e_err : option error
}.

(** The system, the calls made so far, and whether the goroutine has
    panicked: after a panic nothing more is run and nothing is returned. *)
Record State : Type := {
  sys : Sys;
  log : list Entry;
  panicked : bool
}.

(** A Go function that returns an [error] and may change the system; the
    state it leaves is kept whether or not it fails.  The second component
    is the error the function returns; it is [None] also for a function
    that does not return because it panics, which [panicked] of the state
    it leaves tells. *)
Definition Action : Type := State -> State * option error.

(** Record a call of [s] that turns the system into [sys'] and returns [r]. *)
Definition record (s : Step) (st : State) (out : Sys * option error) : State * option error :=
  ({| sys := out.1;
      log := (log st ++ [ {| e_step := s; e_before := sys st; e_after := out.1; e_err := out.2 |} ])%list;
      panicked := panicked st |},
   out.2).

(** A call into a collaborator. *)
Definition call (env : Env) (b : Builder) (s : Step) : Action :=
  fun st => record s st (exec env b s (sys st)).

(** [if err := a1; err != nil { return err }; a2]; [a2] is not reached
    when [a1] panics. *)
Definition andThen (a1 a2 : Action) : Action :=
  fun st =>
    match a1 st with
    | (st', Some err) => (st', Some err)
    | (st', None) => if panicked st' then (st', None) else a2 st'
    end.

(** A nil pointer dereference. *)
Definition panic : Action :=
  fun st => ({| sys := sys st; log := log st; panicked := true |}, None).

(** A call whose result is not looked at. *)
Definition discard (a : Action) : Action :=
  fun st => ((a st).1, None).

Definition skip : Action := fun st => (st, None).

Declare Scope action_scope.
Delimit Scope action_scope with action.
Bind Scope action_scope with Action.
Notation "a1 >>> a2" := (andThen a1 a2)
  (at level 90, right associativity) : action_scope.
Local Open Scope action_scope.

(** ** The build options gatekeeper *)

Definition buildOptionsFileName : string := "build.options.json".

Definition storedBuildOptions (m : BuildOptionsManager) (fs : Node) : option string :=
  match fs_lookup (Join (bom_buildPath m) buildOptionsFileName) fs with
  | Some (File c) => Some c
  | _ => None
  end.

(** The build directory has to be emptied: a clean build was asked for, or
    the options stored in it are not the current ones. *)
Definition needsWipe (env : Env) (m : BuildOptionsManager) (fs : Node) : bool :=
  bom_clean m || negb (bool_decide (storedBuildOptions m fs = Some (buildOptionsJSON env m))).

(** The build directory when it holds the options file and nothing else. *)
Definition wipedBuildDir (env : Env) (m : BuildOptionsManager) : Node :=
  Dir {[ buildOptionsFileName := File (buildOptionsJSON env m) ]}.

(** Modelled from the spec: [BuildOptionsManager.WipeBuildPath] is in a file
    that is not part of the sources at hand.  Section 4.8: compares the
    canonical JSON of the inputs with build.options.json in the build
    directory; on mismatch or explicit clean request, deletes the build
    directory's contents (keeping the directory itself) and writes the new
    file.  A build path that is not a directory is a filesystem failure. *)
Definition WipeBuildPath_run (env : Env) (m : BuildOptionsManager) (s : Sys) : Sys * option error :=
  match fs_lookup (bom_buildPath m) (fs s) with
  | Some (Dir _) =>
      if needsWipe env m (fs s) then
        ({| fs := fs_alter (fun _ => wipedBuildDir env m) (bom_buildPath m) (fs s);
            importedLibraries := importedLibraries s |}, None)
      else (s, None)
  | _ => (s, Some (errors_New "cleaning build path"))
  end.

(** ** preprocess, build and Build *)

(** [Builder.RunRecipe] is defined in another file of the package: what it
    does and returns for a prefix, a suffix and a flag is the environment's
    to say. *)
Definition RunRecipe_ (env : Env) (b : Builder) (prefix suffix : string) (flag : bool) : Action :=
  call env b (RunRecipe prefix suffix flag).

(** [b.BuildOptionsManager.WipeBuildPath()]. *)
Definition BuildOptionsManager_WipeBuildPath (env : Env) (b : Builder) : Action :=
  fun st => record WipeBuildPath st (WipeBuildPath_run env (buildOptionsManager b) (sys st)).

(** [b.removeUnusedCompiledLibraries(b.SketchLibrariesDetector.ImportedLibraries())]. *)
Definition Builder_removeUnusedCompiledLibraries (b : Builder) : Action :=
  fun st =>
    let out := removeUnusedCompiledLibraries (librariesBuildPath b)
                 (importedLibraries (sys st)) (fs (sys st)) in
    record removeUnusedCompiledLibraries_ st
      ({| fs := out.1; importedLibraries := importedLibraries (sys st) |}, out.2).

(** [b.targetPlatform.Platform.Architecture], line 279; [None] when one of
    the two pointers is nil. *)
Definition targetArchitecture (b : Builder) : option string :=
  match targetPlatform b with
  | Some release =>
      match pr_Platform release with
      | Some platform => Some (Architecture platform)
      | None => None
      end
  | None => None
  end.

(** [Builder.preprocess], lines 247-306.  Progress reports and verbose log
    lines are left out, here and below.  The arguments of [FindIncludes]
    are evaluated before it is called: when the target platform is nil the
    last of them panics, and [FindIncludes] is not called. *)
Definition preprocess (env : Env) (b : Builder) : Action :=
  call env b MkdirAll >>>
  BuildOptionsManager_WipeBuildPath env b >>>
  RunRecipe_ env b "recipe.hooks.prebuild" ".pattern" false >>>
  call env b prepareSketchBuildPath >>>
  match targetArchitecture b with
  | Some _ => call env b FindIncludes
  | None => panic
  end >>>
  discard (call env b warnAboutArchIncompatibleLibraries) >>>
  call env b preprocessSketch >>>
  call env b ReadFile_preprocessedSketch >>>
  discard (call env b WriteStdout).

(** [Builder.build], lines 357-474. *)
Definition build (env : Env) (b : Builder) : Action :=
  RunRecipe_ env b "recipe.hooks.sketch.prebuild" ".pattern" false >>>
  call env b BuildSketch >>>
  RunRecipe_ env b "recipe.hooks.sketch.postbuild" ".pattern" true >>>
  RunRecipe_ env b "recipe.hooks.libraries.prebuild" ".pattern" false >>>
  Builder_removeUnusedCompiledLibraries b >>>
  call env b buildLibraries >>>
  RunRecipe_ env b "recipe.hooks.libraries.postbuild" ".pattern" true >>>
  RunRecipe_ env b "recipe.hooks.core.prebuild" ".pattern" false >>>
  call env b buildCore >>>
  RunRecipe_ env b "recipe.hooks.core.postbuild" ".pattern" true >>>
  RunRecipe_ env b "recipe.hooks.linking.prelink" ".pattern" false >>>
  call env b link >>>
  RunRecipe_ env b "recipe.hooks.linking.postlink" ".pattern" true >>>
  RunRecipe_ env b "recipe.hooks.objcopy.preobjcopy" ".pattern" false >>>
  RunRecipe_ env b "recipe.objcopy." ".pattern" true >>>
  RunRecipe_ env b "recipe.hooks.objcopy.postobjcopy" ".pattern" true >>>
  call env b MergeSketchWithBootloader >>>
  RunRecipe_ env b "recipe.hooks.postbuild" ".pattern" true >>>
  match compilationDatabase b with
  | Some _ => discard (call env b SaveToFile)
  | None => skip
  end.

(** [Builder.Build], lines 320-354. *)
Definition Build (env : Env) (b : Builder) : Action :=
  preprocess env b >>>
  fun st =>
    let '(st, buildErr) := build env b st in
    let st := (call env b (PrintUsedAndNotUsedLibraries (bool_decide (buildErr <> None))) st).1 in
    let st := (call env b printUsedLibraries st).1 in
    match buildErr with
    | Some err => (st, Some err)
    | None => (call env b exportProjectCMake >>> call env b size) st
    end.

(** [Builder.Preprocess], lines 241-245. *)
Definition Preprocess (env : Env) (b : Builder) : Action := preprocess env b.

(** ** Sequences of calls and their traces *)

(** A call as [preprocess] and [build] make it: the step, what it does, and
    whether the caller returns on its error. *)
Record Call : Type := {
  c_step : Step;
  c_run : Sys -> Sys * option error;
  c_checked : bool
}.

Definition perform (c : Call) : Action :=
  fun st =>
    let r := record (c_step c) st (c_run c (sys st)) in
    if c_checked c then r else (r.1, None).

Definition runCalls (l : list Call) : Action :=
  foldr (fun c k => perform c >>> k) skip l.

(** The calls whose result the builder does not look at: they return
    nothing, or what they return is dropped. *)
Definition is_unchecked (s : Step) : bool :=
  match s with
  | warnAboutArchIncompatibleLibraries | WriteStdout | SaveToFile
  | PrintUsedAndNotUsedLibraries _ | printUsedLibraries => true
  | _ => false
  end.

(** What a step does: the two steps modelled above act on the filesystem as
    defined there, the others as the environment says. *)
Definition step_run (env : Env) (b : Builder) (s : Step) : Sys -> Sys * option error :=
  match s with
  | WipeBuildPath => WipeBuildPath_run env (buildOptionsManager b)
  | removeUnusedCompiledLibraries_ =>
      fun s =>
        let out := removeUnusedCompiledLibraries (librariesBuildPath b)
                     (importedLibraries s) (fs s) in
        ({| fs := out.1; importedLibraries := importedLibraries s |}, out.2)
  | _ => exec env b s
  end.

Definition step_call (env : Env) (b : Builder) (s : Step) : Call :=
  {| c_step := s; c_run := step_run env b s; c_checked := negb (is_unchecked s) |}.

(** Run the steps of [l] in order, returning at the first checked one that
    fails. *)
Definition run (env : Env) (b : Builder) (l : list Step) : Action :=
  runCalls (map (step_call env b) l).

(** The steps of [preprocess], in the order of lines 248-303. *)
Definition preprocess_phases : list Step :=
  [ MkdirAll;
    WipeBuildPath;
    RunRecipe "recipe.hooks.prebuild" ".pattern" false;
    prepareSketchBuildPath;
    FindIncludes;
    warnAboutArchIncompatibleLibraries;
    preprocessSketch;
    ReadFile_preprocessedSketch;
    WriteStdout ].

(** The phases of [build], in the order of section 4.7 of the
    specification. *)
Definition build_phases : list Step :=
  [ RunRecipe "recipe.hooks.sketch.prebuild" ".pattern" false;
    BuildSketch;
    RunRecipe "recipe.hooks.sketch.postbuild" ".pattern" true;
    RunRecipe "recipe.hooks.libraries.prebuild" ".pattern" false;
    removeUnusedCompiledLibraries_;
    buildLibraries;
    RunRecipe "recipe.hooks.libraries.postbuild" ".pattern" true;
    RunRecipe "recipe.hooks.core.prebuild" ".pattern" false;
    buildCore;
    RunRecipe "recipe.hooks.core.postbuild" ".pattern" true;
    RunRecipe "recipe.hooks.linking.prelink" ".pattern" false;
    link;
    RunRecipe "recipe.hooks.linking.postlink" ".pattern" true;
    RunRecipe "recipe.hooks.objcopy.preobjcopy" ".pattern" false;
    RunRecipe "recipe.objcopy." ".pattern" true;
    RunRecipe "recipe.hooks.objcopy.postobjcopy" ".pattern" true;
    MergeSketchWithBootloader;
    RunRecipe "recipe.hooks.postbuild" ".pattern" true;
    SaveToFile ].

(** The steps [build] goes through for the builder [b]: the database is
    written when the builder has one. *)
Definition phases_of (b : Builder) : list Step :=
  match compilationDatabase b with
  | Some _ => build_phases
  | None => removelast build_phases
  end.

(** What [Build] does once [build] has returned: the two reports on the
    libraries, then, when [build] did not fail, the CMake export and the
    size computation. *)
Definition after_build (failed : bool) : list Step :=
  PrintUsedAndNotUsedLibraries failed :: printUsedLibraries ::
  (if failed then [] else [exportProjectCMake; size]).

(** The steps [preprocess] goes through for the builder [b]: with a nil
    target platform it does not get past [prepareSketchBuildPath]. *)
Definition preprocess_reached (b : Builder) : list Step :=
  match targetArchitecture b with
  | Some _ => preprocess_phases
  | None => [ MkdirAll; WipeBuildPath;
              RunRecipe "recipe.hooks.prebuild" ".pattern" false;
              prepareSketchBuildPath ]
  end.

(** The entries [entries] are calls that were made, one after the other,
    from the system [s0] to the system [s1]: each one was made on the system
    the one before it left, and holds what the call did to the system and
    the error it returned. *)
Fixpoint executed (env : Env) (b : Builder) (s0 : Sys) (entries : list Entry) (s1 : Sys) : Prop :=
  match entries with
  | [] => s1 = s0
  | e :: rest =>
      e_before e = s0 /\
      step_run env b (e_step e) s0 = (e_after e, e_err e) /\
      executed env b (e_after e) rest s1
  end.

(** The entries a sequence of calls adds to the log, with the error it
    returns: every call is entered with what it did, and the sequence ends
    at the first call that is checked and fails. *)
Inductive Trace : list Call -> Sys -> list Entry -> Sys -> option error -> Prop :=
| Trace_done s : Trace [] s [] s None
| Trace_next c l e new s' r :
    e_step e = c_step c ->
    c_run c (e_before e) = (e_after e, e_err e) ->
    (c_checked c = true -> e_err e = None) ->
    Trace l (e_after e) new s' r ->
    Trace (c :: l) (e_before e) (e :: new) s' r
| Trace_abort c l e err :
    e_step e = c_step c ->
    c_run c (e_before e) = (e_after e, e_err e) ->
    c_checked c = true ->
    e_err e = Some err ->
    Trace (c :: l) (e_before e) [e] (e_after e) (Some err).

Definition start (s : Sys) : State := {| sys := s; log := []; panicked := false |}.

Definition steps (st : State) : list Step := map e_step (log st).



(** The compile and link steps of [build]. *)
Definition compile_or_link : list Step := [ BuildSketch; buildLibraries; buildCore; link ].

(** A step that runs a recipe of the platform: a hook, a compilation (also
    the ones the include detection and the sketch preprocessing make), the
    linker, objcopy or the size recipe. *)
Definition runsRecipe (s : Step) : bool :=
  match s with
  | RunRecipe _ _ _ | FindIncludes | preprocessSketch | BuildSketch
  | buildLibraries | buildCore | link | size => true
  | _ => false
  end.

(** ** The libraries directory after the removal *)

Definition removeEntry (name : string) (n : Node) : Node :=
  match n with
  | Dir m => Dir (delete name m)
  | File c => File c
  end.

(** What one iteration of the loop does to the libraries directory
    itself. *)
Definition pruneOne (libraryNames : list string) (file : string) (n : Node) : Node :=
  match n with
  | Dir m =>
      match m !! file with
      | Some (Dir _) =>
          if SliceContains libraryNames file then Dir m else Dir (delete file m)
      | _ => Dir m
      end
  | File c => File c
  end.

Definition pruneList (libraryNames files : list string) (n : Node) : Node :=
  foldl (fun n file => pruneOne libraryNames file n) n files.

(** The entry of a libraries directory that the removal keeps: [None] for a
    directory that is not an imported library, the entry itself
    otherwise. *)
Definition kept (libraryNames : list string) (name : string) (entry : option Node) : option Node :=
  match entry with
  | Some (Dir d) => if SliceContains libraryNames name then Some (Dir d) else None
  | Some (File c) => Some (File c)
  | None => None
  end.

(** ** A sample environment and sample inputs

    Used to run the definitions on concrete inputs. *)
Module Sample.

(** Split ["key=value"] at its first [=]. *)
Fixpoint splitKeyValue (s : string) : option (string * string) :=
  match s with
  | EmptyString => None
  | String c s' =>
      if Ascii.eqb c (Ascii.ascii_of_nat 61) then Some (EmptyString, s')
      else match splitKeyValue s' with
           | Some (k, v) => Some (String c k, v)
           | None => None
           end
  end.

(** A [LoadFromSlice] that reads each entry as ["key=value"] and fails on
    an entry without [=]. *)
Fixpoint loadFromSlice (lines : list string) (m : properties.Map) : error + properties.Map :=
  match lines with
  | [] => inr m
  | line :: rest =>
      match splitKeyValue line with
      | Some (k, v) => loadFromSlice rest (properties.Set_ k v m)
      | None => inl (errors_New "Invalid line format, should be 'key=value'")
      end
  end.

(** Every collaborator succeeds and leaves the system as it is, except
    that a step returns the error [outcome] gives for it. *)
Definition env (outcome : Step -> option error) : Env :=
  {| LoadFromSlice := fun lines => loadFromSlice lines properties.NewMap;
     Abs := fun p => inr p;
     Canonical := fun p => p;
     LibrariesLoader := fun _ _ _ _ _ _ _ => inr ([], [], EmptyString);
     buildOptionsJSON := fun m => bom_fqbn m;
     exec := fun _ s sys => (sys, outcome s) |}.

Definition allSucceed : Step -> option error := fun _ => None.

Definition failsAt (bad : Step) (err : error) : Step -> option error :=
  fun s => if decide (s = bad) then Some err else None.

Definition exitStatus1 : error := errors_New "exit status 1".

Definition sk : Sketch :=
  {| MainFile := ["home"; "user"; "Blink"; "Blink.ino"];
     FullPath := ["home"; "user"; "Blink"] |}.

(** Board properties as a platform.txt gives them, with a stale build.path. *)
Definition board : properties.Map :=
  <["build.mcu" := "atmega328p"]>
    (<["build.path" := "/old/build"]>
       (<["compiler.optimization_flags" := "-Os"]>
          (<["compiler.optimization_flags.release" := "-Os"]>
             (<["compiler.optimization_flags.debug" := "-Og -g3"]> ∅)))).

Definition args (buildPath : Path) (requestBuildProperties : list string) : NewBuilderArgs :=
  {| arg_sk := Some sk;
     arg_boardBuildProperties := Some board;
     arg_buildPath := Some buildPath;
     arg_optimizeForDebug := false;
     arg_coreBuildCachePath := None;
     arg_jobs := 1;
     arg_requestBuildProperties := requestBuildProperties;
     arg_hardwareDirs := [];
     arg_builtInToolsDirs := [];
     arg_otherLibrariesDirs := [];
     arg_builtInLibrariesDirs := None;
     arg_fqbn := "arduino:avr:uno";
     arg_clean := false;
     arg_sourceOverrides := ∅;
     arg_onlyUpdateCompilationDatabase := false;
     arg_targetPlatform := Some {| pr_Platform := Some {| Architecture := "avr" |} |};
     arg_actualPlatform := Some {| pr_Platform := Some {| Architecture := "avr" |} |};
     arg_useCachedLibrariesResolution := false;
     arg_librariesManager := None;
     arg_libraryDirs := [] |}.

Definition buildDir : Path := ["tmp"; "build"].

(** The same inputs with [optimizeForDebug] set. *)
Definition debugArgs (a : NewBuilderArgs) : NewBuilderArgs :=
  {| arg_sk := arg_sk a;
     arg_boardBuildProperties := arg_boardBuildProperties a;
     arg_buildPath := arg_buildPath a;
     arg_optimizeForDebug := true;
     arg_coreBuildCachePath := arg_coreBuildCachePath a;
     arg_jobs := arg_jobs a;
     arg_requestBuildProperties := arg_requestBuildProperties a;
     arg_hardwareDirs := arg_hardwareDirs a;
     arg_builtInToolsDirs := arg_builtInToolsDirs a;
     arg_otherLibrariesDirs := arg_otherLibrariesDirs a;
     arg_builtInLibrariesDirs := arg_builtInLibrariesDirs a;
     arg_fqbn := arg_fqbn a;
     arg_clean := arg_clean a;
     arg_sourceOverrides := arg_sourceOverrides a;
     arg_onlyUpdateCompilationDatabase := arg_onlyUpdateCompilationDatabase a;
     arg_targetPlatform := arg_targetPlatform a;
     arg_actualPlatform := arg_actualPlatform a;
     arg_useCachedLibrariesResolution := arg_useCachedLibrariesResolution a;
     arg_librariesManager := arg_librariesManager a;
     arg_libraryDirs := arg_libraryDirs a |}.

Definition noBuilder : Builder :=
  {| sketch := sk; buildProperties := ∅; buildPath := []; sketchBuildPath := [];
     coreBuildPath := []; librariesBuildPath := []; jobs := 0;
     customBuildProperties := []; coreBuildCachePath := None; clean := false;
     sourceOverrides := ∅; onlyUpdateCompilationDatabase := false;
     compilationDatabase := None; targetPlatform := None; actualPlatform := None;
     libsDetector := NewSketchLibrariesDetector [] [] false false;
     buildOptionsManager :=
       NewBuildOptionsManager [] [] [] None [] sk [] EmptyString false EmptyString None None |}.

(** The builder a call of [NewBuilder] returned. *)
Definition returned (r : result Builder) : Builder :=
  match r with
  | Returns b => b
  | _ => noBuilder
  end.

Definition overrides : list string := [ "build.mcu=atmega2560" ].

(** The builder [NewBuilder] returns for the sample sketch, the build path
    /tmp/build and the override build.mcu=atmega2560. *)
Definition builder : Builder :=
  returned (NewBuilder (env allSucceed) (args buildDir overrides)).

(** The same with [optimizeForDebug] set. *)
Definition debugBuilder : Builder :=
  returned (NewBuilder (env allSucceed) (debugArgs (args buildDir overrides))).

(** The same inputs with a nil target platform. *)
Definition withoutTargetPlatform (a : NewBuilderArgs) : NewBuilderArgs :=
  {| arg_sk := arg_sk a;
     arg_boardBuildProperties := arg_boardBuildProperties a;
     arg_buildPath := arg_buildPath a;
     arg_optimizeForDebug := arg_optimizeForDebug a;
     arg_coreBuildCachePath := arg_coreBuildCachePath a;
     arg_jobs := arg_jobs a;
     arg_requestBuildProperties := arg_requestBuildProperties a;
     arg_hardwareDirs := arg_hardwareDirs a;
     arg_builtInToolsDirs := arg_builtInToolsDirs a;
     arg_otherLibrariesDirs := arg_otherLibrariesDirs a;
     arg_builtInLibrariesDirs := arg_builtInLibrariesDirs a;
     arg_fqbn := arg_fqbn a;
     arg_clean := arg_clean a;
     arg_sourceOverrides := arg_sourceOverrides a;
     arg_onlyUpdateCompilationDatabase := arg_onlyUpdateCompilationDatabase a;
     arg_targetPlatform := None;
     arg_actualPlatform := arg_actualPlatform a;
     arg_useCachedLibrariesResolution := arg_useCachedLibrariesResolution a;
     arg_librariesManager := arg_librariesManager a;
     arg_libraryDirs := arg_libraryDirs a |}.

(** The builder [NewBuilder] returns for them. *)
Definition builderWithoutTargetPlatform : Builder :=
  returned (NewBuilder (env allSucceed) (withoutTargetPlatform (args buildDir overrides))).

(** The libraries build tree of [TestUnusedCompiledLibrariesRemover]: two
    directories and a plain file. *)
Definition librariesTree : gmap string Node :=
  <["SPI" := Dir (<["SPI.cpp.o" := File "obj"]> ∅)]>
    (<["Bridge" := Dir ∅]>
       (<["dummy_file" := File EmptyString]> ∅)).

(** A filesystem whose build directory was left by a build for another
    board. *)
Definition root : Node :=
  Dir (<["tmp" :=
           Dir (<["build" :=
                    Dir (<["build.options.json" := File "arduino:avr:leonardo"]>
                           (<["libraries" := Dir librariesTree]> ∅))]> ∅)]> ∅).

Definition system : Sys :=
  {| fs := root; importedLibraries := [ {| Name := "Bridge" |} ] |}.

Definition librariesDir : Path := ["tmp"; "build"; "libraries"].

Definition malformed : list string := [ "no_equals_sign" ].

Definition invalidLine : error := errors_New "Invalid line format, should be 'key=value'".

Definition prebuildHook : Step := RunRecipe "recipe.hooks.prebuild" ".pattern" false.

(** The log of a build of the sample sketch in which every step
    succeeds. *)
Definition successLog : list Entry :=
  log (Build (env allSucceed) builder (start system)).1.


(** The sample system once the build options gatekeeper has run. *)
Definition wipedSystem : Sys :=
  (WipeBuildPath_run (env allSucceed) (buildOptionsManager builder) system).1.

(** The entry of a step that fails with exit status 1 after the
    gatekeeper has run. *)
Definition failedEntry (s : Step) : Entry :=
  {| e_step := s; e_before := wipedSystem; e_after := wipedSystem;
     e_err := Some exitStatus1 |}.

Definition succeededEntry (s : Step) : Entry :=
  {| e_step := s; e_before := wipedSystem; e_after := wipedSystem; e_err := None |}.

End Sample.


(** ** The errors of package [arduino]

    The error types of [arduino/errors.go] with their [Error], [Unwrap] and
    [ToRPCStatus] methods. *)
(** The message of an error made outside package [arduino]. *)
Definition foreignMessage (e : error) : string := Error e.

Module arduino.

(** An argument of a format string. *)
Inductive Arg : Type :=
| ArgS (s : string)
| ArgD (n : Z).

(** [discovery.Port], as far as the messages read it. *)
Record Port : Type := { Address : string; Protocol : string }.

(** [codes.Code] of google.golang.org/grpc. *)
Module codes.
Inductive Code : Type :=
| OK | Canceled | Unknown | InvalidArgument | DeadlineExceeded | NotFound
| AlreadyExists | PermissionDenied | ResourceExhausted | FailedPrecondition
| Aborted | OutOfRange | Unimplemented | Internal | Unavailable | DataLoss
| Unauthenticated.
End codes.

(** The two messages attached as details of a status. *)
Inductive Detail : Type :=
| ProgrammerIsRequiredForUploadError
| AlreadyAtLatestVersionError.

(** A [*status.Status]. *)
Record Status : Type := {
  Code : codes.Code;
  Message : string;
  Details : list Detail
}.

Definition status_New (c : codes.Code) (msg : string) : Status :=
  {| Code := c; Message := msg; Details := [] |}.

Definition WithDetails (st : Status) (d : Detail) : Status :=
  {| Code := Code st; Message := Message st; Details := (Details st ++ [d])%list |}.

(** An [error] value: a pointer to one of the structs of errors.go, with
    the fields of the struct, or an error made elsewhere.  A [Cause] that is
    nil is [None]; so is the [Port] pointer. *)
#[warnings="-register-all"]
Inductive Err : Type :=
| Foreign (e : error)
| InvalidInstanceError
| InvalidFQBNError (Cause : option Err)
| InvalidURLError (Cause : option Err)
| InvalidLibraryError (Cause : option Err)
| InvalidVersionError (Cause : option Err)
| MultipleBoardsDetectedError (Port_ : option Port)
| MissingFQBNError
| UnknownFQBNError (Cause : option Err)
| MissingPortAddressError
| MissingPortProtocolError
| MissingPortError
| NoMonitorAvailableForProtocolError (Protocol_ : string)
| MissingProgrammerError
| ProgrammerRequiredForUploadError
| ProgrammerNotFoundError (Programmer : string) (Cause : option Err)
| MonitorNotFoundError (Monitor : string) (Cause : option Err)
| InvalidPlatformPropertyError (Property Value : string)
| MissingPlatformPropertyError (Property : string)
| PlatformNotFoundError (Platform : string) (Cause : option Err)
| PlatformLoadingError (Cause : option Err)
| LibraryNotFoundError (Library_ : string) (Cause : option Err)
| LibraryDependenciesResolutionFailedError (Cause : option Err)
| PlatformAlreadyAtTheLatestVersionError (Platform : string)
| MissingSketchPathError
| CantCreateSketchError (Cause : option Err)
| CantOpenSketchError (Cause : option Err)
| FailedInstallError (Message_ : string) (Cause : option Err)
| FailedLibraryInstallError (Cause : option Err)
| FailedUninstallError (Message_ : string) (Cause : option Err)
| FailedDownloadError (Message_ : string) (Cause : option Err)
| FailedUploadError (Message_ : string) (Cause : option Err)
| FailedDebugError (Message_ : string) (Cause : option Err)
| FailedMonitorError (Cause : option Err)
| CompileFailedError (Message_ : string) (Cause : option Err)
| InvalidArgumentError (Message_ : string) (Cause : option Err)
| NotFoundError (Message_ : string) (Cause : option Err)
| PermissionDeniedError (Message_ : string) (Cause : option Err)
| UnavailableError (Message_ : string) (Cause : option Err)
| TempDirCreationFailedError (Cause : option Err)
| FileCreationFailedError (Message_ : string) (Cause : option Err)
| SignatureVerificationFailedError (File_ : string) (Cause : option Err)
| MultiplePlatformsError (Platforms : list string) (UserPlatform : string).

(** [strings.Join]. *)
Fixpoint strings_Join (l : list string) (sep : string) : string :=
  match l with
  | [] => EmptyString
  | [s] => s
  | s :: rest => s ++ sep ++ strings_Join rest sep
  end.

Definition newline : string := String (Ascii.ascii_of_nat 10) EmptyString.
Definition quote : string := String (Ascii.ascii_of_nat 34) EmptyString.

(** The format of the message of [MultiplePlatformsError]. *)
Definition multiplePlatformsFormat : string :=
  "Found %d platform for reference " ++ quote ++ "%s" ++ quote ++ ":" ++ newline ++ "%s".

(** The message of the run-time panic of a nil pointer dereference. *)
Definition nilDereference : string :=
  "runtime error: invalid memory address or nil pointer dereference".

(** What the verb [%v] of package fmt prints for an error whose [Error]
    method gives [m]: the message, or, for a method that panics ([None]),
    the report of the panic, which fmt recovers. *)
Definition printed (m : option string) : string :=
  match m with
  | Some msg => msg
  | None => "%!v(PANIC=Error method: " ++ nilDereference ++ ")"
  end.

(** [composeErrorMsg], with what the [Error] method of [cause] gives;
    [None] inside [cause] is a call that panics. *)
Definition composeErrorMsgOf (msg : string) (cause : option (option string)) : string :=
  match cause with
  | None => msg
  | Some formatted => msg ++ ": " ++ printed formatted
  end.

Section WithTr.

(** [i18n.Tr]: the message for a format and its arguments, from the
    catalog of the locale. *)
Variable tr : string -> list Arg -> string.

(** The [Error] methods; [None] is a nil pointer dereference.  The
    methods that go through [composeErrorMsg] return also when the [Error]
    method of the cause panics. *)
Fixpoint Error (e : Err) : option string :=
  let composeErrorMsg (msg : string) (cause : option Err) :=
    Some (composeErrorMsgOf msg
            match cause with
            | Some c => Some (Error c)
            | None => None
            end) in
  match e with
  | Foreign e => Some (foreignMessage e)
  | InvalidInstanceError => Some (tr "Invalid instance" [])
  | InvalidFQBNError Cause => composeErrorMsg (tr "Invalid FQBN" []) Cause
  | InvalidURLError Cause => composeErrorMsg (tr "Invalid URL" []) Cause
  | InvalidLibraryError Cause => composeErrorMsg (tr "Invalid library" []) Cause
  | InvalidVersionError Cause => composeErrorMsg (tr "Invalid version" []) Cause
  | MultipleBoardsDetectedError Port_ =>
      match Port_ with
      | Some port =>
          Some (tr "Please specify an FQBN. Multiple possible ports detected on port %s with protocol %s"
                   [ArgS (Address port); ArgS (Protocol port)])
      | None => None
      end
  | MissingFQBNError => Some (tr "Missing FQBN (Fully Qualified Board Name)" [])
  | UnknownFQBNError Cause => composeErrorMsg (tr "Unknown FQBN" []) Cause
  | MissingPortAddressError => Some (tr "Missing port protocol" [])
  | MissingPortProtocolError => Some (tr "Missing port protocol" [])
  | MissingPortError => Some (tr "Missing port" [])
  | NoMonitorAvailableForProtocolError Protocol_ =>
      Some (tr "No monitor available for the port protocol %s" [ArgS Protocol_])
  | MissingProgrammerError => Some (tr "Missing programmer" [])
  | ProgrammerRequiredForUploadError => Some (tr "A programmer is required to upload" [])
  | ProgrammerNotFoundError Programmer Cause =>
      composeErrorMsg (tr "Programmer '%s' not found" [ArgS Programmer]) Cause
  | MonitorNotFoundError Monitor Cause =>
      composeErrorMsg (tr "Monitor '%s' not found" [ArgS Monitor]) Cause
  | InvalidPlatformPropertyError Property Value =>
      Some (tr "Invalid '%[1]s' property: %[2]s" [ArgS Property; ArgS Value])
  | MissingPlatformPropertyError Property =>
      Some (tr "Property '%s' is undefined" [ArgS Property])
  | PlatformNotFoundError Platform Cause =>
      composeErrorMsg (tr "Platform '%s' not found" [ArgS Platform]) Cause
  | PlatformLoadingError Cause =>
      composeErrorMsg (tr "Error loading hardware platform" []) Cause
  | LibraryNotFoundError Library_ Cause =>
      composeErrorMsg (tr "Library '%s' not found" [ArgS Library_]) Cause
  | LibraryDependenciesResolutionFailedError Cause =>
      composeErrorMsg (tr "No valid dependencies solution found" []) Cause
  | PlatformAlreadyAtTheLatestVersionError Platform =>
      Some (tr "Platform '%s' is already at the latest version" [ArgS Platform])
  | MissingSketchPathError => Some (tr "Missing sketch path" [])
  | CantCreateSketchError Cause => composeErrorMsg (tr "Can't create sketch" []) Cause
  | CantOpenSketchError Cause => composeErrorMsg (tr "Can't open sketch" []) Cause
  | FailedInstallError Message_ Cause => composeErrorMsg Message_ Cause
  | FailedLibraryInstallError Cause => composeErrorMsg (tr "Library install failed" []) Cause
  | FailedUninstallError Message_ Cause => composeErrorMsg Message_ Cause
  | FailedDownloadError Message_ Cause => composeErrorMsg Message_ Cause
  | FailedUploadError Message_ Cause => composeErrorMsg Message_ Cause
  | FailedDebugError Message_ Cause => composeErrorMsg Message_ Cause
  | FailedMonitorError Cause => composeErrorMsg (tr "Port monitor error" []) Cause
  | CompileFailedError Message_ Cause => composeErrorMsg Message_ Cause
  | InvalidArgumentError Message_ Cause => composeErrorMsg Message_ Cause
  | NotFoundError Message_ Cause => composeErrorMsg Message_ Cause
  | PermissionDeniedError Message_ Cause => composeErrorMsg Message_ Cause
  | UnavailableError Message_ Cause => composeErrorMsg Message_ Cause
  | TempDirCreationFailedError Cause => composeErrorMsg (tr "Cannot create temp dir" []) Cause
  | FileCreationFailedError Message_ Cause => composeErrorMsg Message_ Cause
  | SignatureVerificationFailedError File_ Cause =>
      composeErrorMsg (tr "'%s' has an invalid signature" [ArgS File_]) Cause
  | MultiplePlatformsError Platforms UserPlatform =>
      Some (tr multiplePlatformsFormat
               [ArgD (Z.of_nat (length Platforms)); ArgS UserPlatform;
                ArgS (strings_Join Platforms newline)])
  end.

(** [composeErrorMsg], lines 132-137. *)
Definition composeErrorMsg (msg : string) (cause : option Err) : string :=
  composeErrorMsgOf msg (Error <$> cause).

(** The [ToRPCStatus] methods: [None] for a type that has none, [Some None]
    for a call that panics. *)
Definition ToRPCStatus (e : Err) : option (option Status) :=
  let status (c : codes.Code) := Some (status_New c <$> Error e) in
  match e with
  | Foreign _ => None
  | InvalidInstanceError => status codes.InvalidArgument
  | InvalidFQBNError _ => status codes.InvalidArgument
  | InvalidURLError _ => status codes.InvalidArgument
  | InvalidLibraryError _ => status codes.InvalidArgument
  | InvalidVersionError _ => status codes.InvalidArgument
  | MultipleBoardsDetectedError _ => status codes.InvalidArgument
  | MissingFQBNError => status codes.InvalidArgument
  | UnknownFQBNError _ => status codes.NotFound
  | MissingPortAddressError => status codes.InvalidArgument
  | MissingPortProtocolError => status codes.InvalidArgument
  | MissingPortError => status codes.InvalidArgument
  | NoMonitorAvailableForProtocolError _ => status codes.InvalidArgument
  | MissingProgrammerError => status codes.InvalidArgument
  | ProgrammerRequiredForUploadError =>
      Some ((fun msg => WithDetails (status_New codes.InvalidArgument msg)
                          ProgrammerIsRequiredForUploadError) <$> Error e)
  | ProgrammerNotFoundError _ _ => status codes.NotFound
  | MonitorNotFoundError _ _ => status codes.NotFound
  | InvalidPlatformPropertyError _ _ => status codes.FailedPrecondition
  | MissingPlatformPropertyError _ => status codes.FailedPrecondition
  | PlatformNotFoundError _ _ => status codes.FailedPrecondition
  | PlatformLoadingError _ => status codes.FailedPrecondition
  | LibraryNotFoundError _ _ => status codes.FailedPrecondition
  | LibraryDependenciesResolutionFailedError _ => status codes.FailedPrecondition
  | PlatformAlreadyAtTheLatestVersionError _ =>
      Some ((fun msg => WithDetails (status_New codes.AlreadyExists msg)
                          AlreadyAtLatestVersionError) <$> Error e)
  | MissingSketchPathError => status codes.InvalidArgument
  | CantCreateSketchError _ => None
  | CantOpenSketchError _ => status codes.NotFound
  | FailedInstallError _ _ => status codes.Internal
  | FailedLibraryInstallError _ => status codes.Internal
  | FailedUninstallError _ _ => status codes.Internal
  | FailedDownloadError _ _ => status codes.Internal
  | FailedUploadError _ _ => status codes.Internal
  | FailedDebugError _ _ => status codes.Internal
  | FailedMonitorError _ => status codes.Internal
  | CompileFailedError _ _ => status codes.Internal
  | InvalidArgumentError _ _ => status codes.InvalidArgument
  | NotFoundError _ _ => status codes.NotFound
  | PermissionDeniedError _ _ => status codes.PermissionDenied
  | UnavailableError _ _ => status codes.Unavailable
  | TempDirCreationFailedError _ => status codes.Unavailable
  | FileCreationFailedError _ _ => status codes.Unavailable
  | SignatureVerificationFailedError _ _ => status codes.Unavailable
  | MultiplePlatformsError _ _ => status codes.InvalidArgument
  end.

End WithTr.

(** [errors.Unwrap]: what the [Unwrap] method of the error returns, nil for
    a type without that method. *)
Definition Unwrap (e : Err) : option Err :=
  match e with
  | Foreign e => Foreign <$> errors_Unwrap e
  | InvalidFQBNError Cause | InvalidURLError Cause | InvalidLibraryError Cause
  | InvalidVersionError Cause | UnknownFQBNError Cause
  | ProgrammerNotFoundError _ Cause | MonitorNotFoundError _ Cause
  | PlatformNotFoundError _ Cause | PlatformLoadingError Cause
  | LibraryNotFoundError _ Cause | LibraryDependenciesResolutionFailedError Cause
  | CantCreateSketchError Cause | CantOpenSketchError Cause
  | FailedInstallError _ Cause | FailedLibraryInstallError Cause
  | FailedUninstallError _ Cause | FailedDownloadError _ Cause
  | FailedUploadError _ Cause | FailedDebugError _ Cause
  | FailedMonitorError Cause | CompileFailedError _ Cause
  | InvalidArgumentError _ Cause | NotFoundError _ Cause
  | PermissionDeniedError _ Cause | UnavailableError _ Cause
  | TempDirCreationFailedError Cause | FileCreationFailedError _ Cause
  | SignatureVerificationFailedError _ Cause => Cause
  | _ => None
  end.

(** [e] is one of the structs of errors.go and [c] is its [Cause]. *)
Definition wraps (e c : Err) : Prop :=
  Unwrap e = Some c /\ forall x, e <> Foreign x.

(** A catalog without translations: the format itself. *)
Definition untranslated : string -> list Arg -> string := fun format _ => format.

End arduino.

(** * Properties *)

Local Open Scope list_scope.

(** ** The filesystem *)

Section Filesystem.

Implicit Types (p q : Path) (n : Node) (f g : Node -> Node).

Lemma fs_lookup_app p q n :
  fs_lookup (p ++ q) n = fs_lookup p n ≫= fs_lookup q.
Proof.
  revert n. induction p as [|s p IH]; intros n; simpl; [done|].
  destruct n as [c|m]; [done|]. destruct (m !! s); [apply IH|done].
Qed.

Lemma fs_lookup_alter f p n :
  fs_lookup p (fs_alter f p n) = f <$> fs_lookup p n.
Proof.
  revert n. induction p as [|s p IH]; intros n; simpl; [done|].
  destruct n as [c|m]; simpl; [done|].
  rewrite lookup_alter_eq. destruct (m !! s); simpl; [apply IH|done].
Qed.

Lemma fs_alter_ext f g p n :
  (forall x, fs_lookup p n = Some x -> f x = g x) ->
  fs_alter f p n = fs_alter g p n.
Proof.
  revert n. induction p as [|s p IH]; intros n H; simpl in *; [by apply H|].
  destruct n as [c|m]; [done|]. f_equal.
  apply alter_ext. intros c Hc. apply IH. intros x Hx. apply H. by rewrite Hc.
Qed.

Lemma fs_alter_same f p n :
  (forall x, fs_lookup p n = Some x -> f x = x) ->
  fs_alter f p n = n.
Proof.
  revert n. induction p as [|s p IH]; intros n H; simpl in *; [by apply H|].
  destruct n as [c|m]; [done|]. f_equal.
  apply alter_id. intros c Hc. apply IH. intros x Hx. apply H. by rewrite Hc.
Qed.

Lemma fs_alter_compose f g p n :
  fs_alter g p (fs_alter f p n) = fs_alter (g ∘ f) p n.
Proof.
  revert n. induction p as [|s p IH]; intros n; simpl; [done|].
  destruct n as [c|m]; [done|]. f_equal.
  apply map_eq. intros j. destruct (decide (s = j)) as [<-|Hne].
  - rewrite !lookup_alter_eq. destruct (m !! s); simpl; [f_equal; apply IH|done].
  - by rewrite !lookup_alter_ne.
Qed.

Lemma RemoveAll_Join p s n :
  RemoveAll (Join p s) n = fs_alter (removeEntry s) p n.
Proof.
  unfold Join. revert n. induction p as [|a p IH]; intros n; [done|].
  destruct p as [|b p]; simpl in *; (destruct n as [c|m]; [done|]);
    f_equal; apply alter_ext; intros c _; apply IH.
Qed.

End Filesystem.

(** ** removeUnusedCompiledLibraries *)

Section UnusedCompiledLibraries.

Variable librariesBuildPath : Path.
Variable libraryNames : list string.

(** The node at the path being the one [Hp] names, conclude on it. *)
Local Ltac at_node Hp :=
  let x := fresh "x" in
  let Hx := fresh "Hx" in
  intros x Hx; rewrite Hp in Hx; simplify_eq; simpl.

Lemma removeIfUnused_alter fs file :
  removeIfUnused librariesBuildPath libraryNames fs file
  = fs_alter (pruneOne libraryNames file) librariesBuildPath fs.
Proof.
  unfold removeIfUnused, IsDir. rewrite (fs_lookup_app librariesBuildPath [file]).
  destruct (fs_lookup librariesBuildPath fs) as [[c|m]|] eqn:Hp; simpl.
  - symmetry. apply fs_alter_same. by at_node Hp.
  - destruct (m !! file) as [[c|d]|] eqn:Hf; simpl.
    + symmetry. apply fs_alter_same. at_node Hp. by rewrite Hf.
    + destruct (SliceContains libraryNames file) eqn:Hc; simpl.
      * symmetry. apply fs_alter_same. at_node Hp. by rewrite Hf, Hc.
      * rewrite RemoveAll_Join. apply fs_alter_ext. at_node Hp.
        by rewrite Hf, Hc.
    + symmetry. apply fs_alter_same. at_node Hp. by rewrite Hf.
  - symmetry. apply fs_alter_same. by at_node Hp.
Qed.

Lemma foldl_removeIfUnused files fs :
  foldl (removeIfUnused librariesBuildPath libraryNames) fs files
  = fs_alter (pruneList libraryNames files) librariesBuildPath fs.
Proof.
  revert fs. induction files as [|file files IH]; intros fs; simpl.
  - symmetry. by apply fs_alter_same.
  - rewrite IH, removeIfUnused_alter, fs_alter_compose. done.
Qed.

Lemma kept_idemp name entry :
  kept libraryNames name (kept libraryNames name entry) = kept libraryNames name entry.
Proof.
  unfold kept. destruct entry as [[c|d]|]; try done.
  destruct (SliceContains libraryNames name) eqn:Hc; by rewrite ?Hc.
Qed.

Lemma pruneOne_lookup file (m : gmap string Node) :
  exists m' : gmap string Node,
    pruneOne libraryNames file (Dir m) = Dir m' /\
    forall name, m' !! name =
      if decide (name = file) then kept libraryNames name (m !! name) else m !! name.
Proof.
  unfold pruneOne, kept. destruct (m !! file) as [[c|d]|] eqn:Hf.
  - exists m. split; [done|]. intros name. case_decide; [subst; by rewrite Hf|done].
  - destruct (SliceContains libraryNames file) eqn:Hc.
    + exists m. split; [done|]. intros name.
      case_decide; [subst; by rewrite Hf, Hc|done].
    + exists (delete file m). split; [done|]. intros name.
      case_decide as Hn.
      * subst. by rewrite lookup_delete_eq, Hf, Hc.
      * by rewrite lookup_delete_ne.
  - exists m. split; [done|]. intros name. case_decide; [subst; by rewrite Hf|done].
Qed.

Lemma pruneList_lookup files (m : gmap string Node) :
  exists m' : gmap string Node,
    pruneList libraryNames files (Dir m) = Dir m' /\
    forall name, m' !! name =
      if bool_decide (name ∈ files) then kept libraryNames name (m !! name) else m !! name.
Proof.
  revert m. induction files as [|file files IH]; intros m.
  - exists m. split; [done|]. intros name. rewrite bool_decide_eq_false_2; [done|].
    apply not_elem_of_nil.
  - destruct (pruneOne_lookup file m) as (m1 & E1 & L1).
    destruct (IH m1) as (m' & E' & L').
    exists m'. split.
    + unfold pruneList in *. simpl foldl. simpl in E1. by rewrite E1.
    + intros name. rewrite L', L1.
      destruct (decide (name = file)) as [->|Hne].
      * rewrite (bool_decide_eq_true_2 (file ∈ file :: files)) by left.
        case_bool_decide; [apply kept_idemp|done].
      * case_bool_decide as Hin.
        -- rewrite bool_decide_eq_true_2; [done|by right].
        -- rewrite bool_decide_eq_false_2; [done|].
           intros [?|?]%elem_of_cons; done.
Qed.

Lemma pruneList_entries (m : gmap string Node) :
  exists m' : gmap string Node,
    pruneList libraryNames (map fst (map_to_list m)) (Dir m) = Dir m' /\
    forall name, m' !! name = kept libraryNames name (m !! name).
Proof.
  destruct (pruneList_lookup (map fst (map_to_list m)) m) as (m' & E & L).
  exists m'. split; [done|]. intros name. rewrite L.
  case_bool_decide as Hin; [done|].
  destruct (m !! name) as [x|] eqn:Hx; [|done].
  exfalso. apply Hin. apply list_elem_of_fmap. exists (name, x).
  split; [done|]. by apply elem_of_map_to_list.
Qed.

End UnusedCompiledLibraries.

(** What the removal returns for a libraries build tree that is a
    directory: the same filesystem with that directory pruned. *)
Lemma removeUnusedCompiledLibraries_pruned p libs fs (m : gmap string Node) :
  fs_lookup p fs = Some (Dir m) ->
  exists m' : gmap string Node,
    removeUnusedCompiledLibraries p libs fs = (fs_alter (fun _ => Dir m') p fs, None) /\
    forall name, m' !! name = kept (toLibraryNames libs) name (m !! name).
Proof.
  intros Hp. destruct (pruneList_entries (toLibraryNames libs) m) as (m' & E & L).
  exists m'. split; [|done].
  unfold removeUnusedCompiledLibraries, NotExist, Exist, ReadDir. rewrite Hp.
  rewrite bool_decide_eq_true_2 by eauto. simpl.
  rewrite foldl_removeIfUnused. f_equal.
  apply fs_alter_ext. intros x Hx. rewrite Hp in Hx. by injection Hx as <-.
Qed.

Lemma fs_lookup_Join p name fs (m : gmap string Node) :
  fs_lookup p fs = Some (Dir m) -> fs_lookup (Join p name) fs = m !! name.
Proof.
  intros Hp. unfold Join. rewrite fs_lookup_app, Hp. simpl. by destruct (m !! name).
Qed.

Lemma IsDir_true p fs :
  IsDir p fs = true -> exists m : gmap string Node, fs_lookup p fs = Some (Dir m).
Proof.
  unfold IsDir. destruct (fs_lookup p fs) as [[c|m]|]; try done. by exists m.
Qed.

(** C4.  Whatever the libraries build tree holds and whatever libraries are
    imported, removeUnusedCompiledLibraries succeeds when the tree is a
    directory, and in the filesystem it leaves: an entry of the tree that is
    a directory whose name is not the name of an imported library is gone,
    with everything below it; a directory with the name of an imported
    library is as it was; an entry that is not a directory is as it was;
    nothing outside the tree changes.  With no imported library every
    directory is gone and every plain file is as it was. *)
Theorem removeUnusedCompiledLibraries_exact (p : Path) (libs : list Library) (fs : Node) :
  IsDir p fs = true ->
  exists fs',
    removeUnusedCompiledLibraries p libs fs = (fs', None) /\
    (forall name, IsDir (Join p name) fs = true -> name ∉ toLibraryNames libs ->
       forall q, fs_lookup (Join p name ++ q) fs' = None) /\
    (forall name, IsDir (Join p name) fs = true -> name ∈ toLibraryNames libs ->
       fs_lookup (Join p name) fs' = fs_lookup (Join p name) fs) /\
    (forall name, IsDir (Join p name) fs = false ->
       fs_lookup (Join p name) fs' = fs_lookup (Join p name) fs) /\
    (exists d, fs' = fs_alter (fun _ => d) p fs) /\
    (libs = [] -> forall name,
       fs_lookup (Join p name) fs' =
         if IsDir (Join p name) fs then None else fs_lookup (Join p name) fs).
Proof.
  intros [m Hp]%IsDir_true.
  destruct (removeUnusedCompiledLibraries_pruned p libs fs m Hp) as (m' & E & L).
  exists (fs_alter (fun _ => Dir m') p fs). split; [done|].
  assert (Hp' : fs_lookup p (fs_alter (fun _ => Dir m') p fs) = Some (Dir m'))
    by (by rewrite fs_lookup_alter, Hp).
  assert (Hl : forall name,
    fs_lookup (Join p name) (fs_alter (fun _ => Dir m') p fs)
    = kept (toLibraryNames libs) name (fs_lookup (Join p name) fs)).
  { intros name. by rewrite (fs_lookup_Join _ _ _ _ Hp'), (fs_lookup_Join _ _ _ _ Hp), L. }
  repeat split.
  - intros name Hd Hn q. rewrite fs_lookup_app, Hl. unfold IsDir in Hd.
    destruct (fs_lookup (Join p name) fs) as [[c|d]|]; try done. simpl.
    unfold SliceContains. by rewrite bool_decide_eq_false_2.
  - intros name Hd Hn. rewrite Hl. unfold IsDir in Hd.
    destruct (fs_lookup (Join p name) fs) as [[c|d]|]; try done. simpl.
    unfold SliceContains. by rewrite bool_decide_eq_true_2.
  - intros name Hd. rewrite Hl. unfold IsDir in Hd.
    by destruct (fs_lookup (Join p name) fs) as [[c|d]|].
  - by exists (Dir m').
  - intros -> name. rewrite Hl. unfold IsDir.
    by destruct (fs_lookup (Join p name) fs) as [[c|d]|].
Qed.

Lemma removeUnusedCompiledLibraries_exact_witness :
  exists fs',
    removeUnusedCompiledLibraries Sample.librariesDir
      (importedLibraries Sample.system) Sample.root = (fs', None) /\
    (forall name, IsDir (Join Sample.librariesDir name) Sample.root = true ->
       name ∉ toLibraryNames (importedLibraries Sample.system) ->
       forall q, fs_lookup (Join Sample.librariesDir name ++ q) fs' = None) /\
    (forall name, IsDir (Join Sample.librariesDir name) Sample.root = true ->
       name ∈ toLibraryNames (importedLibraries Sample.system) ->
       fs_lookup (Join Sample.librariesDir name) fs'
       = fs_lookup (Join Sample.librariesDir name) Sample.root) /\
    (forall name, IsDir (Join Sample.librariesDir name) Sample.root = false ->
       fs_lookup (Join Sample.librariesDir name) fs'
       = fs_lookup (Join Sample.librariesDir name) Sample.root) /\
    (exists d, fs' = fs_alter (fun _ => d) Sample.librariesDir Sample.root) /\
    (importedLibraries Sample.system = [] -> forall name,
       fs_lookup (Join Sample.librariesDir name) fs' =
         if IsDir (Join Sample.librariesDir name) Sample.root then None
         else fs_lookup (Join Sample.librariesDir name) Sample.root).
Proof.
  apply (removeUnusedCompiledLibraries_exact Sample.librariesDir
           (importedLibraries Sample.system) Sample.root).
  reflexivity.
Defined.

(** The libraries build tree of [TestUnusedCompiledLibrariesRemover], with
    Bridge imported: SPI is removed, Bridge and dummy_file stay. *)
Example TestUnusedCompiledLibrariesRemover :
  let fs' := (removeUnusedCompiledLibraries Sample.librariesDir
                (importedLibraries Sample.system) Sample.root).1 in
  Exist (Join Sample.librariesDir "SPI") fs' = false /\
  Exist (Join Sample.librariesDir "Bridge") fs' = true /\
  Exist (Join Sample.librariesDir "dummy_file") fs' = true.
Proof. by vm_compute. Qed.

(** ** Sequences of calls *)

Section Traces.

Implicit Types (l : list Call) (st : State) (new : list Entry) (r : option error).

Lemma andThen_skip (a : Action) st : (a >>> skip) st = a st.
Proof.
  unfold andThen, skip. destruct (a st) as [st' [err|]]; [done|].
  by destruct (panicked st').
Qed.

Lemma andThen_assoc (a1 a2 a3 : Action) st :
  ((a1 >>> a2) >>> a3) st = (a1 >>> (a2 >>> a3)) st.
Proof.
  unfold andThen. destruct (a1 st) as [st1 [err|]]; [done|].
  destruct (panicked st1) eqn:H1; [by rewrite H1|done].
Qed.

(** Nothing is run after a panic. *)
Lemma panic_andThen (a : Action) st : (panic >>> a) st = panic st.
Proof. done. Qed.

Lemma skip_panic st : (skip >>> panic) st = panic st.
Proof.
  unfold andThen, skip, panic. destruct st as [s l [|]]; done.
Qed.

(** Running a list of calls adds a trace of that list to the log, and does
    not panic. *)
Lemma runCalls_Trace l st :
  panicked st = false ->
  exists new s',
    runCalls l st = ({| sys := s'; log := log st ++ new; panicked := false |},
                     (runCalls l st).2) /\
    Trace l (sys st) new s' (runCalls l st).2.
Proof.
  revert st. induction l as [|c l IH]; intros st Hst.
  - exists [], (sys st). split; [|constructor].
    destruct st. simpl in *. unfold skip. simpl. by rewrite app_nil_r, Hst.
  - pose (e := {| e_step := c_step c; e_before := sys st;
                  e_after := (c_run c (sys st)).1; e_err := (c_run c (sys st)).2 |}).
    pose (st1 := {| sys := e_after e; log := log st ++ [e]; panicked := false |}).
    assert (Hrun : c_run c (e_before e) = (e_after e, e_err e))
      by (simpl; by destruct (c_run c (sys st))).
    change (runCalls (c :: l) st) with ((perform c >>> runCalls l) st).
    unfold andThen.
    assert (Hp : perform c st = (st1, if c_checked c then e_err e else None)).
    { unfold perform, record. rewrite Hst. by destruct (c_checked c). }
    rewrite Hp.
    destruct (c_checked c) eqn:Hc; [destruct (e_err e) as [err|] eqn:He|].
    + exists [e], (e_after e). split; [done|].
      change (Trace (c :: l) (e_before e) [e] (e_after e) (Some err)).
      apply Trace_abort; [done|by rewrite He|done|done].
    + destruct (IH st1 eq_refl) as (new & s' & E & T).
      exists (e :: new), s'. cbn [panicked st1]. split.
      * rewrite E at 1. simpl. by rewrite <- app_assoc.
      * change (Trace (c :: l) (e_before e) (e :: new) s' (runCalls l st1).2).
        apply Trace_next; first [done | by rewrite He | congruence].
    + destruct (IH st1 eq_refl) as (new & s' & E & T).
      exists (e :: new), s'. cbn [panicked st1]. split.
      * rewrite E at 1. simpl. by rewrite <- app_assoc.
      * change (Trace (c :: l) (e_before e) (e :: new) s' (runCalls l st1).2).
        apply Trace_next; first [done | by rewrite He | congruence].
Qed.

(** The steps entered are the steps of the calls, up to where the
    sequence ended. *)
Lemma Trace_steps_prefix l s new s' r :
  Trace l s new s' r -> map e_step new `prefix_of` map c_step l.
Proof.
  induction 1 as [s|c l e new s' r Hs Hr Hc T IH|c l e err Hs Hr Hc He]; simpl.
  - done.
  - rewrite Hs. by apply prefix_cons.
  - rewrite Hs. apply prefix_cons, prefix_nil.
Qed.

(** A sequence that returns no error has gone through all its calls. *)
Lemma Trace_success l s new s' :
  Trace l s new s' None -> map e_step new = map c_step l.
Proof.
  remember None as r eqn:Er. induction 1 as [s|c l e new s' r Hs Hr Hc T IH|]; simpl.
  - done.
  - rewrite Hs. f_equal. by apply IH.
  - done.
Qed.

(** A sequence that returns an error has stopped at the call that
    returned it. *)
Lemma Trace_failure l s new s' err :
  Trace l s new s' (Some err) ->
  exists new1 e l1 c l2,
    new = new1 ++ [e] /\ l = l1 ++ c :: l2 /\
    map e_step new1 = map c_step l1 /\ e_step e = c_step c /\
    c_checked c = true /\ e_err e = Some err /\
    Forall (fun e' => e_err e' = None \/ exists c', c' ∈ l1 /\ c_step c' = e_step e' /\ c_checked c' = false) new1.
Proof.
  remember (Some err) as r eqn:Er.
  induction 1 as [s|c l e new s' r Hs Hr Hc T IH|c l e err' Hs Hr Hc He]; [done| |].
  - destruct (IH Er) as (new1 & e1 & l1 & c1 & l2 & -> & -> & Hm & Hs1 & Hc1 & He1 & Hall).
    exists (e :: new1), e1, (c :: l1), c1, l2. repeat split; try done.
    + simpl. by rewrite Hs, Hm.
    + constructor.
      * destruct (c_checked c) eqn:Hcc; [left; by apply Hc|].
        right. exists c. split; [left|done].
      * eapply Forall_impl; [exact Hall|]. intros e' [?|(c' & ? & ? & ?)]; [by left|].
        right. exists c'. split; [by right|done].
  - simplify_eq. exists [], e, [], c, l. repeat split; try done.
Qed.

(** An entry with the error of a checked call is the last one, and its
    error is the one returned. *)
Lemma Trace_failed_entry l s new s' r e err :
  Trace l s new s' r ->
  e ∈ new -> e_err e = Some err ->
  (forall c, c ∈ l -> c_step c = e_step e -> c_checked c = true) ->
  r = Some err /\ exists new1, new = new1 ++ [e].
Proof.
  induction 1 as [s|c l e0 new s' r Hs Hr Hc T IH|c l e0 err' Hs Hr Hc He];
    intros Hin Herr Hchk.
  - by apply elem_of_nil in Hin.
  - apply elem_of_cons in Hin as [->|Hin].
    + rewrite Hc in Herr; [done|]. apply Hchk; [left|done].
    + destruct IH as (-> & new1 & ->); try done.
      * intros c' Hc'. apply Hchk. by right.
      * split; [done|]. by exists (e0 :: new1).
  - apply list_elem_of_singleton in Hin as ->. split; [congruence|]. by exists [].
Qed.

(** A sequence of calls none of which is checked returns no error. *)
Lemma Trace_unchecked l s new s' r :
  Forall (fun c => c_checked c = false) l -> Trace l s new s' r -> r = None.
Proof.
  intros Hall T. induction T as [s|c l e new s' r Hs Hr Hc T IH|c l e err Hs Hr Hc He].
  - done.
  - apply IH. by inversion Hall.
  - inversion Hall; congruence.
Qed.

End Traces.

(** ** preprocess, build and Build as sequences of steps *)

Section Pipeline.

Variable env : Env.
Variable b : Builder.

Implicit Types (st : State) (l : list Step).

Lemma andThen_ext2 (a a' a1 a2 : Action) st :
  (forall st', a st' = a' st') -> (forall st', a1 st' = a2 st') ->
  (a >>> a1) st = (a' >>> a2) st.
Proof.
  intros H H1. unfold andThen. rewrite H.
  destruct (a' st) as [st' [err|]]; [done|].
  destruct (panicked st'); [done|apply H1].
Qed.

Lemma steps_of_calls l : map c_step (map (step_call env b) l) = l.
Proof. induction l as [|s l IH]; simpl; [done|by rewrite IH]. Qed.

(** With a target platform, [preprocess] is the sequence of its nine
    steps. *)
Lemma preprocess_run st arch :
  targetArchitecture b = Some arch ->
  preprocess env b st = run env b preprocess_phases st.
Proof.
  intros Ht. unfold preprocess, run, runCalls, preprocess_phases. rewrite Ht.
  simpl map. simpl foldr.
  repeat (apply andThen_ext2; [reflexivity|intros]).
  symmetry. apply andThen_skip.
Qed.

(** Without one, it is the sequence of the first four, and then a panic. *)
Lemma preprocess_run_nil st :
  targetArchitecture b = None ->
  preprocess env b st = (run env b (preprocess_reached b) >>> panic) st.
Proof.
  intros Ht. unfold preprocess, preprocess_reached, run, runCalls. rewrite Ht.
  simpl map. simpl foldr.
  rewrite !andThen_assoc.
  apply andThen_ext2; [reflexivity|intros]. rewrite !andThen_assoc.
  apply andThen_ext2; [reflexivity|intros]. rewrite !andThen_assoc.
  apply andThen_ext2; [reflexivity|intros]. rewrite !andThen_assoc.
  apply andThen_ext2; [reflexivity|intros].
  by rewrite panic_andThen, skip_panic.
Qed.

Lemma build_run st : build env b st = run env b (phases_of b) st.
Proof.
  unfold build, run, runCalls, phases_of.
  destruct (compilationDatabase b); simpl removelast; simpl map; simpl foldr;
    repeat (apply andThen_ext2; [reflexivity|intros]).
  - symmetry. apply andThen_skip.
  - reflexivity.
Qed.

Lemma run_Trace l st :
  panicked st = false ->
  exists new s',
    run env b l st = ({| sys := s'; log := log st ++ new; panicked := false |},
                      (run env b l st).2) /\
    Trace (map (step_call env b) l) (sys st) new s' (run env b l st).2.
Proof. apply runCalls_Trace. Qed.

(** The steps [preprocess] reaches are the first of its steps. *)
Lemma preprocess_reached_prefix : preprocess_reached b `prefix_of` preprocess_phases.
Proof.
  unfold preprocess_reached. destruct (targetArchitecture b); [done|].
  by eexists.
Qed.

(** [preprocess] adds to the log a trace of the steps it reaches; it panics
    when it has gone through them without an error and the target platform
    is nil. *)
Lemma preprocess_Trace st :
  panicked st = false ->
  exists pre s1,
    Trace (map (step_call env b) (preprocess_reached b)) (sys st) pre s1
      (preprocess env b st).2 /\
    preprocess env b st =
      ({| sys := s1; log := log st ++ pre;
          panicked := match (preprocess env b st).2, targetArchitecture b with
                      | None, None => true
                      | _, _ => false
                      end |},
       (preprocess env b st).2).
Proof.
  intros Hst. destruct (targetArchitecture b) as [arch|] eqn:Ht.
  - rewrite (preprocess_run st arch Ht).
    destruct (run_Trace preprocess_phases st Hst) as (pre & s1 & E & T).
    exists pre, s1. unfold preprocess_reached. rewrite Ht. split; [done|].
    rewrite E at 1. by destruct (run env b preprocess_phases st).2.
  - rewrite (preprocess_run_nil st Ht).
    destruct (run_Trace (preprocess_reached b) st Hst) as (pre & s1 & E & T).
    exists pre, s1. unfold andThen. rewrite E.
    destruct (run env b (preprocess_reached b) st).2 as [err|]; done.
Qed.

(** What [Build] does once [preprocess] has returned. *)
Lemma Build_run st :
  Build env b st =
    match preprocess env b st with
    | (st1, Some err) => (st1, Some err)
    | (st1, None) =>
        if panicked st1 then (st1, None) else
        let out2 := run env b (phases_of b) st1 in
        let out3 := run env b (after_build (bool_decide (out2.2 <> None))) out2.1 in
        (out3.1, from_option Some out3.2 out2.2)
    end.
Proof.
  unfold Build, andThen.
  destruct (preprocess env b st) as [st1 [err|]]; [done|].
  destruct (panicked st1) eqn:H1; [done|].
  rewrite build_run.
  destruct (run_Trace (phases_of b) st1 H1) as (bld & s2 & E2 & _).
  rewrite E2. cbn [fst snd].
  destruct (run env b (phases_of b) st1).2 as [err|]; simpl; [reflexivity|].
  unfold run, runCalls, after_build, andThen, perform, record, call. simpl.
  destruct (exec env b exportProjectCMake _) as [s3 [e3|]]; simpl; [reflexivity|].
  by destruct (exec env b size _) as [s4 [e4|]].
Qed.

End Pipeline.

Section BuildTrace.

Variable env : Env.
Variable b : Builder.

Implicit Types (st : State) (l : list Step) (e : Entry).

(** The log of [Build]: a trace of the steps [preprocess] reaches; then,
    when [preprocess] returned no error and did not panic, a trace of the
    phases of [build] and a trace of what follows [build]. *)
Lemma Build_Trace st :
  panicked st = false ->
  exists pre s1 r1,
    Trace (map (step_call env b) (preprocess_reached b)) (sys st) pre s1 r1 /\
    match r1 with
    | Some err =>
        Build env b st = ({| sys := s1; log := log st ++ pre; panicked := false |}, Some err)
    | None =>
        match targetArchitecture b with
        | None =>
            Build env b st = ({| sys := s1; log := log st ++ pre; panicked := true |}, None)
        | Some _ =>
            exists bld s2 r2 tl s3 r3,
              Trace (map (step_call env b) (phases_of b)) s1 bld s2 r2 /\
              Trace (map (step_call env b) (after_build (bool_decide (r2 <> None)))) s2 tl s3 r3 /\
              Build env b st =
                ({| sys := s3; log := log st ++ pre ++ bld ++ tl; panicked := false |},
                 from_option Some r3 r2)
        end
    end.
Proof.
  intros Hst. rewrite Build_run.
  destruct (preprocess_Trace env b st Hst) as (pre & s1 & T1 & E1).
  rewrite E1. exists pre, s1, (preprocess env b st).2. split; [done|].
  destruct (preprocess env b st).2 as [err|]; [done|].
  destruct (targetArchitecture b) as [arch|]; [|done]. cbn [panicked].
  set (st1 := {| sys := s1; log := log st ++ pre; panicked := false |}).
  destruct (run_Trace env b (phases_of b) st1 eq_refl) as (bld & s2 & E2 & T2).
  set (r2 := (run env b (phases_of b) st1).2) in *.
  set (st2 := {| sys := s2; log := log st1 ++ bld; panicked := false |}) in *.
  rewrite E2. cbn [fst snd].
  destruct (run_Trace env b (after_build (bool_decide (r2 <> None))) st2 eq_refl)
    as (tl & s3 & E3 & T3).
  exists bld, s2, r2, tl, s3, (run env b (after_build (bool_decide (r2 <> None))) st2).2.
  split; [done|]. split; [done|].
  rewrite E3 at 1. cbn [fst snd]. f_equal. f_equal. subst st2 st1. simpl.
  by rewrite <- !app_assoc.
Qed.

(** A trace of a list of steps holds calls that were made. *)
Lemma Trace_executed l s new s' r :
  Trace (map (step_call env b) l) s new s' r -> executed env b s new s'.
Proof.
  remember (map (step_call env b) l) as cl eqn:Ecl. intros T. revert l Ecl.
  induction T as [s|c cl e new s' r Hs Hr Hc T IH|c cl e err Hs Hr Hc He];
    intros l Ecl.
  - done.
  - destruct l as [|x l]; [done|]. injection Ecl as -> ->. simpl in Hs, Hr.
    split_and!; [done|by rewrite Hs|by eapply IH].
  - destruct l as [|x l]; [done|]. injection Ecl as -> ->. simpl in Hs, Hr.
    split_and!; [done|by rewrite Hs|done].
Qed.

Lemma executed_app s0 (new1 : list Entry) s1 (new2 : list Entry) s2 :
  executed env b s0 new1 s1 -> executed env b s1 new2 s2 ->
  executed env b s0 (new1 ++ new2) s2.
Proof.
  revert s0. induction new1 as [|e new1 IH]; intros s0; simpl.
  - by intros ->.
  - intros (? & ? & ?) ?. split_and!; [done|done|by apply IH].
Qed.

Lemma checked_calls l e :
  is_unchecked (e_step e) = false ->
  forall c, c ∈ map (step_call env b) l -> c_step c = e_step e -> c_checked c = true.
Proof.
  intros Hu c [s [-> _]]%list_elem_of_fmap Hs. simpl in *. by rewrite Hs, Hu.
Qed.

Lemma unchecked_after_failure :
  Forall (fun c => c_checked c = false) (map (step_call env b) (after_build true)).
Proof. repeat constructor. Qed.

Lemma phases_of_prefix : phases_of b `prefix_of` build_phases.
Proof.
  unfold phases_of. destruct (compilationDatabase b); [done|].
  by exists [SaveToFile].
Qed.

(** The steps of a trace of a list of steps are a prefix of that list. *)
Lemma Trace_prefix l s new s' r :
  Trace (map (step_call env b) l) s new s' r -> map e_step new `prefix_of` l.
Proof. intros T. apply Trace_steps_prefix in T. by rewrite steps_of_calls in T. Qed.

Lemma Trace_complete l s new s' :
  Trace (map (step_call env b) l) s new s' None -> map e_step new = l.
Proof. intros T. apply Trace_success in T. by rewrite steps_of_calls in T. Qed.

End BuildTrace.

(** ** Facts about the lists of steps *)

Lemma after_build_disjoint failed s :
  s ∈ after_build failed -> s ∉ preprocess_phases ++ build_phases.
Proof.
  intros Hin. apply (bool_decide_unpack _).
  destruct failed; unfold after_build in Hin;
    repeat (apply elem_of_cons in Hin as [->|Hin]; [by vm_compute|]);
    by apply elem_of_nil in Hin.
Qed.

Lemma build_phases_checked s :
  s ∈ build_phases -> s <> SaveToFile -> is_unchecked s = false.
Proof.
  intros Hin Hne. unfold build_phases in Hin.
  repeat (apply elem_of_cons in Hin as [->|Hin]; [done|]).
  by apply elem_of_nil in Hin.
Qed.

(** In a list without repetition, what comes up to an element that is not the
    last one does not hold the last one. *)
Lemma not_last_in_prefix {A} (l done : list A) (s x : A) :
  NoDup l -> last l = Some x -> (done ++ [s]) `prefix_of` l -> s <> x ->
  x ∉ done ++ [s].
Proof.
  intros Hnd [l' Hl']%last_Some [rest ->] Hne Hin.
  assert (Hrest : x ∈ rest).
  { destruct rest as [|y rest _] using rev_ind.
    - rewrite app_nil_r in Hl'. by apply app_inj_tail in Hl' as [_ ?].
    - rewrite app_assoc in Hl'. apply app_inj_tail in Hl' as [_ ->].
      apply elem_of_app. right. by left. }
  apply NoDup_app in Hnd as (_ & Hdis & _). by apply (Hdis x).
Qed.

Lemma prefix_elem_of {A} (l1 l2 : list A) (x : A) :
  l1 `prefix_of` l2 -> x ∈ l1 -> x ∈ l2.
Proof. intros [k ->] Hin. apply elem_of_app. by left. Qed.

(** ** A step that fails *)

(** When a checked step of [preprocess] or [build] returns an error, [Build]
    returns that error.  If the step is one of [preprocess], it is the last
    one entered; if it is one of [build], the steps entered before it are
    those of [preprocess] and the phases of [build] that come before it, and
    the only steps entered after it are the two reports on the libraries. *)
Lemma Build_fatal_entry env b st new e err :
  panicked st = false ->
  log (Build env b st).1 = log st ++ new ->
  e ∈ new -> e_err e = Some err ->
  e_step e ∈ preprocess_phases ++ build_phases ->
  is_unchecked (e_step e) = false ->
  (Build env b st).2 = Some err /\
  exists before after,
    new = before ++ e :: after /\
    ((after = [] /\ (map e_step before ++ [e_step e]) `prefix_of` preprocess_phases) \/
     (exists done,
        map e_step before = preprocess_phases ++ done /\
        (done ++ [e_step e]) `prefix_of` build_phases /\
        map e_step after = [PrintUsedAndNotUsedLibraries true; printUsedLibraries])).
Proof.
  intros Hst Hlog Hin Herr Hph Hu.
  destruct (Build_Trace env b st Hst) as (pre & s1 & r1 & T1 & HB).
  pose proof (checked_calls env b) as Hchk.
  destruct r1 as [err1|]; [|destruct (targetArchitecture b) as [arch|] eqn:Ht].
  - rewrite HB in Hlog |- *. cbn [fst snd log] in Hlog |- *.
    apply app_inv_head in Hlog as <-.
    destruct (Trace_failed_entry _ _ _ _ _ e err T1 Hin Herr (Hchk _ e Hu))
      as ([= ->] & new1 & ->).
    split; [done|]. exists new1, []. split; [done|]. left. split; [done|].
    apply Trace_prefix in T1. rewrite map_app in T1.
    etrans; [exact T1|apply preprocess_reached_prefix].
  - assert (Hpre : preprocess_reached b = preprocess_phases)
      by (unfold preprocess_reached; by rewrite Ht).
    rewrite Hpre in T1.
    destruct HB as (bld & s2 & r2 & tl & s3 & r3 & T2 & T3 & HB).
    rewrite HB in Hlog |- *. cbn [fst snd log] in Hlog |- *.
    apply app_inv_head in Hlog as <-.
    apply elem_of_app in Hin as [Hin|Hin]; [|apply elem_of_app in Hin as [Hin|Hin]].
    + by destruct (Trace_failed_entry _ _ _ _ _ e err T1 Hin Herr (Hchk _ e Hu)).
    + destruct (Trace_failed_entry _ _ _ _ _ e err T2 Hin Herr (Hchk _ e Hu))
        as (-> & bld1 & ->).
      rewrite bool_decide_eq_true_2 in T3 by done.
      assert (r3 = None) as -> by (eapply Trace_unchecked, T3; apply unchecked_after_failure).
      split; [done|]. exists (pre ++ bld1), tl.
      apply Trace_complete in T1, T3. apply Trace_prefix in T2.
      split; [by rewrite <- !app_assoc|]. right. exists (map e_step bld1).
      split; [by rewrite map_app, T1|]. split; [|done].
      rewrite map_app in T2. etrans; [exact T2|apply phases_of_prefix].
    + exfalso. apply Trace_prefix in T3.
      eapply after_build_disjoint; [|exact Hph].
      eapply prefix_elem_of; [exact T3|]. by apply list_elem_of_fmap_2.
  - exfalso. rewrite HB in Hlog. cbn [fst log] in Hlog.
    apply app_inv_head in Hlog as <-.
    by destruct (Trace_failed_entry _ _ _ _ _ e err T1 Hin Herr (Hchk _ e Hu)).
Qed.

Lemma build_phases_NoDup : NoDup build_phases.
Proof. apply (bool_decide_unpack _). by vm_compute. Qed.

Lemma SaveToFile_not_preprocess : SaveToFile ∉ preprocess_phases.
Proof. apply (bool_decide_unpack _). by vm_compute. Qed.

(** No step of a [Build] in which a checked step of [preprocess] or [build]
    fails writes the compilation database. *)
Lemma Build_fatal_no_SaveToFile env b st new e err :
  panicked st = false ->
  log (Build env b st).1 = log st ++ new ->
  e ∈ new -> e_err e = Some err ->
  e_step e ∈ preprocess_phases ++ build_phases ->
  is_unchecked (e_step e) = false ->
  SaveToFile ∉ map e_step new.
Proof.
  intros Hst Hlog Hin Herr Hph Hu.
  destruct (Build_fatal_entry env b st new e err Hst Hlog Hin Herr Hph Hu)
    as (_ & before & after & -> & [[-> Hpre]|(done & Hb & Hpre & Ha)]).
  - rewrite map_app. cbn [map]. intros H.
    by eapply SaveToFile_not_preprocess, prefix_elem_of.
  - assert (Hne : e_step e <> SaveToFile) by (intros E; by rewrite E in Hu).
    pose proof (not_last_in_prefix build_phases done (e_step e) SaveToFile
                  build_phases_NoDup eq_refl Hpre Hne) as Hnot.
    rewrite map_app, Hb. cbn [map]. rewrite Ha.
    intros [[H|H]%elem_of_app|H]%elem_of_app.
    + by apply SaveToFile_not_preprocess.
    + apply Hnot, elem_of_app. by left.
    + apply elem_of_cons in H as [H|H]; [by apply Hne|].
      by repeat (apply elem_of_cons in H as [H|H]; [done|]); apply elem_of_nil in H.
Qed.

Lemma NewBuilder_compilationDatabase env a b :
  NewBuilder env a = Returns b ->
  compilationDatabase b = Some (Join (buildPath b) "compile_commands.json").
Proof.
  unfold NewBuilder. intros H.
  repeat case_match; simplify_eq. done.
Qed.

Lemma compile_or_link_fatal s :
  s ∈ compile_or_link ->
  s ∈ preprocess_phases ++ build_phases /\ is_unchecked s = false /\ (s ∉ preprocess_phases).
Proof.
  intros Hin. unfold compile_or_link in Hin.
  repeat (apply elem_of_cons in Hin as [->|Hin];
          [by split_and!; try apply (bool_decide_unpack _)|]).
  by apply elem_of_nil in Hin.
Qed.


(** * The claims *)

(** ** C1: a compile or link step that fails *)

(** C1, as the code has it.  In every build in which a compile or link step
    (BuildSketch, buildLibraries, buildCore or link) returns an error, Build
    returns that error; build stops at that step, so that the steps of Build
    are those of preprocess, the phases of build up to the failing one, and
    the two reports on the libraries; and the compilation database is not
    written. *)
Theorem compile_or_link_failure_aborts env b s e err :
  e ∈ log (Build env b (start s)).1 ->
  e_step e ∈ compile_or_link ->
  e_err e = Some err ->
  (Build env b (start s)).2 = Some err /\
  (SaveToFile ∉ steps (Build env b (start s)).1) /\
  exists done rest,
    build_phases = done ++ e_step e :: rest /\
    steps (Build env b (start s)).1 =
      preprocess_phases ++ done ++
      [e_step e; PrintUsedAndNotUsedLibraries true; printUsedLibraries].
Proof.
  intros Hin (Hph & Hu & Hnp)%compile_or_link_fatal Herr.
  assert (Hlog : log (Build env b (start s)).1
                 = log (start s) ++ log (Build env b (start s)).1) by done.
  split_and!.
  - by destruct (Build_fatal_entry _ _ (start s) _ _ _ eq_refl Hlog Hin Herr Hph Hu).
  - by apply (Build_fatal_no_SaveToFile _ _ (start s) _ _ _ eq_refl Hlog Hin Herr Hph Hu).
  - destruct (Build_fatal_entry _ _ (start s) _ _ _ eq_refl Hlog Hin Herr Hph Hu)
      as (_ & before & after & E & [[-> Hpre]|(done & Hb & [rest Hpre] & Ha)]).
    + exfalso. apply Hnp. eapply prefix_elem_of; [exact Hpre|].
      apply elem_of_app. right. by left.
    + exists done, rest. split; [by rewrite Hpre, <- app_assoc|].
      unfold steps. rewrite E, map_app, Hb. cbn [map]. rewrite Ha.
      by rewrite <- app_assoc.
Qed.

(** C1 as stated fails: with a sketch whose compilation exits with status 1,
    Build returns that error and its steps end with the two reports on the
    libraries; the compilation database is not written. *)
Lemma compile_failure_skips_database :
  (Build (Sample.env (Sample.failsAt BuildSketch Sample.exitStatus1))
         Sample.builder (start Sample.system)).2 = Some Sample.exitStatus1 /\
  steps (Build (Sample.env (Sample.failsAt BuildSketch Sample.exitStatus1))
               Sample.builder (start Sample.system)).1 =
    preprocess_phases ++
    [ RunRecipe "recipe.hooks.sketch.prebuild" ".pattern" false;
      BuildSketch;
      PrintUsedAndNotUsedLibraries true;
      printUsedLibraries ] /\
  SaveToFile ∉ steps (Build (Sample.env (Sample.failsAt BuildSketch Sample.exitStatus1))
                            Sample.builder (start Sample.system)).1.
Proof.
  split_and!; [by vm_compute | by vm_compute |].
  apply (bool_decide_unpack _). by vm_compute.
Qed.

Lemma compile_or_link_failure_aborts_witness :
  (Build (Sample.env (Sample.failsAt link Sample.exitStatus1))
         Sample.builder (start Sample.system)).2 = Some Sample.exitStatus1 /\
  (SaveToFile ∉ steps (Build (Sample.env (Sample.failsAt link Sample.exitStatus1))
                             Sample.builder (start Sample.system)).1) /\
  exists done rest,
    build_phases = done ++ link :: rest /\
    steps (Build (Sample.env (Sample.failsAt link Sample.exitStatus1))
                 Sample.builder (start Sample.system)).1 =
      preprocess_phases ++ done ++
      [link; PrintUsedAndNotUsedLibraries true; printUsedLibraries].
Proof.
  apply (compile_or_link_failure_aborts
           (Sample.env (Sample.failsAt link Sample.exitStatus1))
           Sample.builder Sample.system (Sample.failedEntry link) Sample.exitStatus1).
  - apply (list_elem_of_lookup_2 _ 20). vm_compute. reflexivity.
  - apply (bool_decide_unpack _). vm_compute. exact I.
  - reflexivity.
Defined.

(** ** C2: the order of the phases *)

Lemma run_inv env b l st st' r :
  panicked st = false ->
  run env b l st = (st', r) ->
  exists new,
    log st' = log st ++ new /\ panicked st' = false /\
    Trace (map (step_call env b) l) (sys st) new (sys st') r.
Proof.
  intros Hst H. destruct (run_Trace env b l st Hst) as (new & s' & E & T).
  rewrite H in E, T. simpl in *. injection E as ->. by exists new.
Qed.

(** The calls made before a phase of [build] that fails returned no
    error. *)
Lemma build_phases_before_failure env b l1 c l2 (new1 : list Entry) :
  map (step_call env b) build_phases = l1 ++ c :: l2 ->
  c_checked c = true ->
  Forall (fun e' => e_err e' = None \/
                    exists c', c' ∈ l1 /\ c_step c' = e_step e' /\ c_checked c' = false) new1 ->
  forall e', e' ∈ new1 -> e_err e' = None.
Proof.
  intros El Hc Hall e' Hin.
  rewrite Forall_forall in Hall. destruct (Hall e' Hin) as [?|(c' & Hc' & Hs & Hu)]; [done|].
  exfalso.
  assert (Hin1 : c' ∈ map (step_call env b) build_phases)
    by (rewrite El; apply elem_of_app; by left).
  assert (Hin2 : c ∈ map (step_call env b) build_phases)
    by (rewrite El; apply elem_of_app; right; by left).
  apply list_elem_of_fmap in Hin1 as (x' & Ex' & Hx').
  apply list_elem_of_fmap in Hin2 as (x & Ex & Hx).
  assert (x' = SaveToFile) as ->.
  { destruct (decide (x' = SaveToFile)) as [|Hne]; [done|].
    pose proof (build_phases_checked x' Hx' Hne) as Hk.
    rewrite Ex' in Hu. simpl in Hu. by rewrite Hk in Hu. }
  assert (Hne : x <> SaveToFile).
  { intros ->. by rewrite Ex in Hc. }
  apply (f_equal (map c_step)) in El. rewrite steps_of_calls, map_app in El.
  cbn [map] in El.
  apply (not_last_in_prefix build_phases (map c_step l1) (c_step c) SaveToFile
           build_phases_NoDup eq_refl).
  - exists (map c_step l2). by rewrite El, <- app_assoc.
  - by rewrite Ex.
  - apply elem_of_app. left. apply list_elem_of_fmap. exists c'.
    split; [by rewrite Ex'|done].
Qed.

(** C2.  For a builder made by NewBuilder, build makes the calls of the
    phases of section 4.7 one after the other, each on the system the one
    before it left, and leaves the system the last call left.  A build that
    succeeds has called all the phases in that order, from the
    sketch.prebuild hook to the write of the compilation database, and
    nothing else, and none of them but the write of the database returned
    an error.  A build that returns an error has called the phases up to
    the one that returned it and stopped there, the phases before it having
    returned none.  A phase that returns an error (other than the write of
    the database) is the last one called, its error being the one build
    returns. *)
Theorem build_phase_order env a b st :
  NewBuilder env a = Returns b ->
  panicked st = false ->
  exists new,
    log (build env b st).1 = log st ++ new /\
    panicked (build env b st).1 = false /\
    executed env b (sys st) new (sys (build env b st).1) /\
    ((build env b st).2 = None ->
     map e_step new = build_phases /\
     forall e, e ∈ new -> e_step e <> SaveToFile -> e_err e = None) /\
    (forall err, (build env b st).2 = Some err ->
       exists done s rest before e,
         build_phases = done ++ s :: rest /\
         new = before ++ [e] /\
         map e_step before = done /\ e_step e = s /\ e_err e = Some err /\
         forall e', e' ∈ before -> e_err e' = None) /\
    (forall e err,
       e ∈ new -> e_err e = Some err -> e_step e <> SaveToFile ->
       (build env b st).2 = Some err /\ last new = Some e).
Proof.
  intros Hdb%NewBuilder_compilationDatabase Hst.
  assert (Hph : phases_of b = build_phases) by (unfold phases_of; by rewrite Hdb).
  destruct (build env b st) as [st' r] eqn:Eb. rewrite build_run, Hph in Eb.
  apply run_inv in Eb as (new & Hlog & Hp & T); [|done]. cbn [fst snd].
  assert (Hfatal : forall e err,
    e ∈ new -> e_err e = Some err -> e_step e <> SaveToFile ->
    r = Some err /\ last new = Some e).
  { intros e err Hin Herr Hne.
    assert (Hu : is_unchecked (e_step e) = false).
    { apply build_phases_checked; [|done].
      eapply prefix_elem_of; [by eapply Trace_prefix|]. by apply list_elem_of_fmap_2. }
    destruct (Trace_failed_entry _ _ _ _ _ e err T Hin Herr (checked_calls env b _ e Hu))
      as (-> & new1 & ->).
    split; [done|]. by rewrite last_snoc. }
  exists new. split_and!; [done|done|by eapply Trace_executed| | |done].
  - intros ->. split; [by apply Trace_complete in T|].
    intros e Hin Hne. destruct (e_err e) as [err|] eqn:Herr; [|done].
    by destruct (Hfatal e err Hin Herr Hne).
  - intros err ->.
    destruct (Trace_failure _ _ _ _ _ T)
      as (new1 & e & l1 & c & l2 & -> & El & Hm & Hs & Hc & He & Hall).
    pose proof (build_phases_before_failure env b l1 c l2 new1 El Hc Hall) as Hbefore.
    apply (f_equal (map c_step)) in El. rewrite steps_of_calls, map_app in El.
    exists (map c_step l1), (c_step c), (map c_step l2), new1, e. by split_and!.
Qed.

Lemma Sample_builder_returned :
  NewBuilder (Sample.env Sample.allSucceed) (Sample.args Sample.buildDir Sample.overrides)
  = Returns Sample.builder.
Proof. by vm_compute. Qed.

Lemma build_phase_order_witness :
  exists new,
    log (build (Sample.env Sample.allSucceed) Sample.builder (start Sample.system)).1
    = log (start Sample.system) ++ new /\
    panicked (build (Sample.env Sample.allSucceed) Sample.builder (start Sample.system)).1
    = false /\
    executed (Sample.env Sample.allSucceed) Sample.builder (sys (start Sample.system)) new
      (sys (build (Sample.env Sample.allSucceed) Sample.builder (start Sample.system)).1) /\
    ((build (Sample.env Sample.allSucceed) Sample.builder (start Sample.system)).2 = None ->
     map e_step new = build_phases /\
     forall e, e ∈ new -> e_step e <> SaveToFile -> e_err e = None) /\
    (forall err,
       (build (Sample.env Sample.allSucceed) Sample.builder (start Sample.system)).2
       = Some err ->
       exists done s rest before e,
         build_phases = done ++ s :: rest /\
         new = before ++ [e] /\
         map e_step before = done /\ e_step e = s /\ e_err e = Some err /\
         forall e', e' ∈ before -> e_err e' = None) /\
    (forall e err,
       e ∈ new -> e_err e = Some err -> e_step e <> SaveToFile ->
       (build (Sample.env Sample.allSucceed) Sample.builder (start Sample.system)).2
       = Some err /\ last new = Some e).
Proof.
  apply (build_phase_order (Sample.env Sample.allSucceed)
           (Sample.args Sample.buildDir Sample.overrides) Sample.builder
           (start Sample.system)).
  - vm_compute. reflexivity.
  - reflexivity.
Defined.

(** ** C3: hooks that fail *)




(** ** C5: the gatekeeper runs first *)

(** How a sequence of calls that starts with two checked calls begins. *)
Lemma Trace_head2 c1 c2 l s new s' r :
  Trace (c1 :: c2 :: l) s new s' r ->
  c_checked c1 = true -> c_checked c2 = true ->
  (is_Some r /\ exists e1, new = [e1] /\ e_step e1 = c_step c1) \/
  (is_Some r /\ exists e1 e2,
     new = [e1; e2] /\ e_step e1 = c_step c1 /\ e_step e2 = c_step c2) \/
  (exists e1 e2 rest,
     new = e1 :: e2 :: rest /\ e_step e1 = c_step c1 /\ e_step e2 = c_step c2 /\
     e_err e2 = None /\ c_run c2 (e_before e2) = (e_after e2, None)).
Proof.
  intros T H1 H2. inversion T as [|? ? e1 new1 ? ? Hs1 Hr1 Hc1 T'|? ? e1 err1 Hs1 Hr1 Hc1 He1];
    subst.
  - inversion T' as [|? ? e2 new2 ? ? Hs2 Hr2 Hc2 T''|? ? e2 err2 Hs2 Hr2 Hc2 He2]; subst.
    + right. right. exists e1, e2, new2. split_and!; try done; [by apply Hc2|].
      by rewrite Hr2, (Hc2 H2).
    + right. left. split; [done|]. by exists e1, e2.
  - left. split; [done|]. by exists e1.
Qed.

Lemma WipeBuildPath_run_wiped env m s s' :
  WipeBuildPath_run env m s = (s', None) ->
  needsWipe env m (fs s) = true ->
  fs_lookup (bom_buildPath m) (fs s') = Some (wipedBuildDir env m).
Proof.
  unfold WipeBuildPath_run. intros H Hw.
  destruct (fs_lookup (bom_buildPath m) (fs s)) as [[c|d]|] eqn:Hl; try done.
  rewrite Hw in H. injection H as <-. simpl. by rewrite fs_lookup_alter, Hl.
Qed.

(** The log of [Build] starts with the log of [preprocess], and is that log
    when [preprocess] fails. *)
Lemma Build_log_preprocess env b s :
  exists pre s1 r1 more,
    Trace (map (step_call env b) (preprocess_reached b)) s pre s1 r1 /\
    log (Build env b (start s)).1 = pre ++ more /\
    (is_Some r1 -> more = []).
Proof.
  destruct (Build_Trace env b (start s) eq_refl) as (pre & s1 & r1 & T1 & HB).
  exists pre, s1, r1. destruct r1 as [err|]; [|destruct (targetArchitecture b)].
  - exists []. rewrite HB. split_and!; [done|by rewrite app_nil_r|done].
  - destruct HB as (bld & s2 & r2 & tl & s3 & r3 & _ & _ & HB).
    exists (bld ++ tl). rewrite HB. split_and!; [done|done|by intros []].
  - exists []. rewrite HB. split_and!; [done|by rewrite app_nil_r|done].
Qed.

(** [preprocess] starts with [MkdirAll] and [WipeBuildPath]. *)
Lemma preprocess_reached_head b :
  exists l, preprocess_reached b = MkdirAll :: WipeBuildPath :: l.
Proof. unfold preprocess_reached. destruct (targetArchitecture b); by eexists. Qed.

(** C5.  In every build, a step that runs a recipe (a hook, a compilation,
    the linker) comes after a call of WipeBuildPath that returned no error;
    and when the options stored in the build directory were not the current
    ones, or a clean build was asked for, that call left the build directory
    with nothing in it but the new options file. *)
Theorem wipe_before_recipes env b s l1 e l2 :
  log (Build env b (start s)).1 = l1 ++ e :: l2 ->
  runsRecipe (e_step e) = true ->
  exists w,
    w ∈ l1 /\ e_step w = WipeBuildPath /\ e_err w = None /\
    WipeBuildPath_run env (buildOptionsManager b) (e_before w) = (e_after w, None) /\
    (needsWipe env (buildOptionsManager b) (fs (e_before w)) = true ->
     fs_lookup (bom_buildPath (buildOptionsManager b)) (fs (e_after w))
     = Some (wipedBuildDir env (buildOptionsManager b))).
Proof.
  intros Hlog Hrec.
  destruct (Build_log_preprocess env b s) as (pre & s1 & r1 & more & T1 & E & Hmore).
  rewrite E in Hlog. clear E.
  destruct (preprocess_reached_head b) as [l Hl]. rewrite Hl in T1. cbn [map] in T1.
  apply Trace_head2 in T1 as
    [(Hr & e1 & -> & Hs1)|[(Hr & e1 & e2 & -> & Hs1 & Hs2)
                          |(e1 & e2 & rest & -> & Hs1 & Hs2 & He2 & Hr2)]];
    [| | |done|done].
  - rewrite (Hmore Hr) in Hlog.
    destruct l1 as [|? [|? ?]]; simplify_eq/=. by rewrite Hs1 in Hrec.
  - rewrite (Hmore Hr) in Hlog.
    destruct l1 as [|? [|? [|? ?]]]; simplify_eq/=.
    + by rewrite Hs1 in Hrec.
    + by rewrite Hs2 in Hrec.
  - destruct l1 as [|a [|a' l1]]; simplify_eq/=.
    + by rewrite Hs1 in Hrec.
    + by rewrite Hs2 in Hrec.
    + exists a'. split_and!; try done.
      * apply elem_of_cons. right. by left.
      * intros Hw. by eapply WipeBuildPath_run_wiped.
Qed.

Lemma wipe_before_recipes_witness :
  exists w,
    w ∈ take 2 Sample.successLog /\ e_step w = WipeBuildPath /\ e_err w = None /\
    WipeBuildPath_run (Sample.env Sample.allSucceed) (buildOptionsManager Sample.builder)
      (e_before w) = (e_after w, None) /\
    (needsWipe (Sample.env Sample.allSucceed) (buildOptionsManager Sample.builder)
       (fs (e_before w)) = true ->
     fs_lookup (bom_buildPath (buildOptionsManager Sample.builder)) (fs (e_after w))
     = Some (wipedBuildDir (Sample.env Sample.allSucceed) (buildOptionsManager Sample.builder))).
Proof.
  apply (wipe_before_recipes (Sample.env Sample.allSucceed) Sample.builder Sample.system
           (take 2 Sample.successLog) (Sample.succeededEntry Sample.prebuildHook)
           (drop 3 Sample.successLog)).
  - vm_compute. reflexivity.
  - reflexivity.
Defined.

(** ** C6, C7, C9: NewBuilder *)

Section NewBuilderProperties.

Variable env : Env.

Lemma NewBuilder_buildProperties a b custom :
  NewBuilder env a = Returns b ->
  LoadFromSlice env (arg_requestBuildProperties a) = inr custom ->
  GetBuildProperties b = properties.Merge (initialBuildProperties a) custom.
Proof.
  unfold NewBuilder. intros H Hc. rewrite Hc in H.
  repeat case_match; simplify_eq. done.
Qed.

Lemma initialBuildProperties_lookup a (board : gmap string string) k :
  arg_boardBuildProperties a = Some board ->
  k ∉ keysSetByNewBuilder ->
  (k = "compiler.optimization_flags" ->
   board !! optimizationFlagsKey (arg_optimizeForDebug a) = None) ->
  initialBuildProperties a !! k = board !! k.
Proof.
  intros Hb Hk Hopt. unfold keysSetByNewBuilder in Hk.
  apply not_elem_of_cons in Hk as [Hk1 Hk]. apply not_elem_of_cons in Hk as [Hk2 Hk].
  apply not_elem_of_cons in Hk as [Hk3 _].
  unfold initialBuildProperties. rewrite Hb.
  unfold properties.Merge, properties.NewMap, properties.SetPath, properties.Set_,
    properties.GetOk.
  rewrite (right_id_L ∅ (∪)).
  set (m1 := match arg_buildPath a with
             | Some buildPath => <["build.path" := Path_String buildPath]> board
             | None => board
             end).
  set (m2 := match arg_sk a with
             | Some sk => <["build.source.path" := Path_String (FullPath sk)]>
                            (<["build.project_name" := Base (MainFile sk)]> m1)
             | None => m1
             end).
  assert (H1 : forall j, j <> "build.path" -> m1 !! j = board !! j).
  { intros j Hj. subst m1. destruct (arg_buildPath a); [by rewrite lookup_insert_ne|done]. }
  assert (H2 : forall j, j <> "build.path" -> j <> "build.project_name" ->
                         j <> "build.source.path" -> m2 !! j = board !! j).
  { intros j Hj1 Hj2 Hj3. subst m2. destruct (arg_sk a); [|by apply H1].
    rewrite !lookup_insert_ne by done. by apply H1. }
  unfold optimizationFlagsKey in Hopt.
  destruct (arg_optimizeForDebug a).
  - destruct (m2 !! "compiler.optimization_flags.debug") as [flags|] eqn:Hf; [|by apply H2].
    rewrite H2 in Hf by done.
    destruct (decide (k = "compiler.optimization_flags")) as [->|Hne].
    + rewrite Hopt in Hf; done.
    + rewrite lookup_insert_ne by done. by apply H2.
  - destruct (m2 !! "compiler.optimization_flags.release") as [flags|] eqn:Hf; [|by apply H2].
    rewrite H2 in Hf by done.
    destruct (decide (k = "compiler.optimization_flags")) as [->|Hne].
    + rewrite Hopt in Hf; done.
    + rewrite lookup_insert_ne by done. by apply H2.
Qed.

(** C6, as the code has it.  In the build properties of a builder made by
    NewBuilder, a key the user-supplied properties set has the
    user-supplied value, also when the board sets it; a key they do not set
    has the value of the board, unless it is one of the keys NewBuilder
    sets itself: build.path, build.project_name, build.source.path, and
    compiler.optimization_flags when the board defines the debug or release
    variant that is selected. *)
Theorem custom_properties_win a b (board custom : gmap string string) k :
  NewBuilder env a = Returns b ->
  arg_boardBuildProperties a = Some board ->
  LoadFromSlice env (arg_requestBuildProperties a) = inr custom ->
  (forall v, custom !! k = Some v -> GetBuildProperties b !! k = Some v) /\
  (custom !! k = None ->
   k ∉ keysSetByNewBuilder ->
   (k = "compiler.optimization_flags" ->
    board !! optimizationFlagsKey (arg_optimizeForDebug a) = None) ->
   GetBuildProperties b !! k = board !! k).
Proof.
  intros HN Hb Hc. rewrite (NewBuilder_buildProperties a b custom HN Hc).
  unfold properties.Merge. split.
  - intros v Hv. by apply lookup_union_Some_l.
  - intros Hn Hk Hopt. rewrite lookup_union_r by done.
    by apply initialBuildProperties_lookup.
Qed.

(** C7.  When the user-supplied properties do not parse (LoadFromSlice
    returns an error), NewBuilder returns the error "invalid build
    properties: ..." that wraps it, and no Builder. *)
Theorem malformed_properties_rejected a err :
  LoadFromSlice env (arg_requestBuildProperties a) = inl err ->
  NewBuilder env a = ReturnsErr (fmt_Errorf_w "invalid build properties: " err) /\
  forall b, NewBuilder env a <> Returns b.
Proof.
  intros H. unfold NewBuilder. by rewrite H.
Qed.

(** C9, as the code has it.  For a sketch and a build path whose canonical
    forms are equal, NewBuilder returns no Builder; it fails with
    ErrSketchCannotBeLocatedInBuildPath when the user-supplied properties
    parse and the sketch, libraries and core build paths can be made
    absolute, and with the error of the step that fails otherwise.  For
    canonical-distinct paths the check does not fire: under the same
    conditions NewBuilder returns the error of LibrariesLoader if it fails
    and a Builder if it does not. *)
Theorem sketch_in_build_path a sk bp :
  arg_sk a = Some sk ->
  arg_buildPath a = Some bp ->
  (Canonical env bp = Canonical env (FullPath sk) ->
   forall b, NewBuilder env a <> Returns b) /\
  (forall custom p1 p2 p3,
     LoadFromSlice env (arg_requestBuildProperties a) = inr custom ->
     Abs env (Join bp "sketch") = inr p1 ->
     Abs env (Join bp "libraries") = inr p2 ->
     Abs env (Join bp "core") = inr p3 ->
     (Canonical env bp = Canonical env (FullPath sk) ->
      NewBuilder env a = ReturnsErr ErrSketchCannotBeLocatedInBuildPath) /\
     (Canonical env bp <> Canonical env (FullPath sk) ->
      (forall err,
         LibrariesLoader env (arg_useCachedLibrariesResolution a)
           (arg_librariesManager a) (arg_builtInLibrariesDirs a)
           (arg_libraryDirs a) (arg_otherLibrariesDirs a)
           (arg_actualPlatform a) (arg_targetPlatform a) = inl err ->
         NewBuilder env a = ReturnsErr err) /\
      (forall loaded,
         LibrariesLoader env (arg_useCachedLibrariesResolution a)
           (arg_librariesManager a) (arg_builtInLibrariesDirs a)
           (arg_libraryDirs a) (arg_otherLibrariesDirs a)
           (arg_actualPlatform a) (arg_targetPlatform a) = inr loaded ->
         exists b, NewBuilder env a = Returns b /\ sketch b = sk /\ buildPath b = bp))).
Proof.
  intros Hsk Hbp. split.
  - intros Hcan b. unfold NewBuilder. rewrite Hsk, Hbp.
    rewrite bool_decide_eq_true_2 by done. by repeat case_match.
  - intros custom p1 p2 p3 Hc H1 H2 H3. unfold NewBuilder.
    rewrite Hc, Hbp, H1, H2, H3, Hsk. split.
    + intros Hcan. by rewrite bool_decide_eq_true_2.
    + intros Hcan. rewrite bool_decide_eq_false_2 by done. split.
      * intros err ->. done.
      * intros [[lm lr] out] ->. eauto.
Qed.

End NewBuilderProperties.

(** C6 as stated fails for the keys NewBuilder sets itself.  The board sets
    build.path and compiler.optimization_flags, the user sets neither; the
    builder has the build path NewBuilder was given and, in a debug build,
    the debug flags of the board. *)
Lemma board_values_overwritten :
  NewBuilder (Sample.env Sample.allSucceed)
    (Sample.debugArgs (Sample.args Sample.buildDir Sample.overrides))
  = Returns Sample.debugBuilder /\
  LoadFromSlice (Sample.env Sample.allSucceed) Sample.overrides
  = inr (<["build.mcu" := "atmega2560"]> ∅) /\
  (Sample.board !! "build.path" = Some "/old/build" /\
   GetBuildProperties Sample.debugBuilder !! "build.path" = Some "/tmp/build") /\
  (Sample.board !! "compiler.optimization_flags" = Some "-Os" /\
   GetBuildProperties Sample.debugBuilder !! "compiler.optimization_flags" = Some "-Og -g3").
Proof. split_and!; by vm_compute. Qed.

Lemma custom_properties_win_witness :
  (forall v, (<["build.mcu" := "atmega2560"]> ∅ : gmap string string) !! "build.mcu" = Some v ->
             GetBuildProperties Sample.builder !! "build.mcu" = Some v) /\
  ((<["build.mcu" := "atmega2560"]> ∅ : gmap string string) !! "build.mcu" = None ->
   "build.mcu" ∉ keysSetByNewBuilder ->
   ("build.mcu" = "compiler.optimization_flags" ->
    Sample.board !! optimizationFlagsKey false = None) ->
   GetBuildProperties Sample.builder !! "build.mcu" = Sample.board !! "build.mcu").
Proof.
  apply (custom_properties_win (Sample.env Sample.allSucceed)
           (Sample.args Sample.buildDir Sample.overrides) Sample.builder
           Sample.board (<["build.mcu" := "atmega2560"]> ∅) "build.mcu").
  - vm_compute. reflexivity.
  - reflexivity.
  - vm_compute. reflexivity.
Defined.

Lemma malformed_properties_rejected_witness :
  NewBuilder (Sample.env Sample.allSucceed) (Sample.args Sample.buildDir Sample.malformed)
  = ReturnsErr (fmt_Errorf_w "invalid build properties: " Sample.invalidLine) /\
  forall b, NewBuilder (Sample.env Sample.allSucceed)
              (Sample.args Sample.buildDir Sample.malformed) <> Returns b.
Proof.
  apply (malformed_properties_rejected (Sample.env Sample.allSucceed)
           (Sample.args Sample.buildDir Sample.malformed) Sample.invalidLine).
  vm_compute. reflexivity.
Defined.

(** C9 as stated fails when the user-supplied properties are malformed: the
    build path is the sketch folder, and NewBuilder fails with the error of
    the properties, not with ErrSketchCannotBeLocatedInBuildPath. *)
Lemma malformed_properties_hide_path_check :
  Canonical (Sample.env Sample.allSucceed) (FullPath Sample.sk)
  = Canonical (Sample.env Sample.allSucceed) (FullPath Sample.sk) /\
  NewBuilder (Sample.env Sample.allSucceed)
    (Sample.args (FullPath Sample.sk) Sample.malformed)
  = ReturnsErr (fmt_Errorf_w "invalid build properties: " Sample.invalidLine) /\
  NewBuilder (Sample.env Sample.allSucceed)
    (Sample.args (FullPath Sample.sk) Sample.malformed)
  <> ReturnsErr ErrSketchCannotBeLocatedInBuildPath.
Proof.
  split_and!; [done|by vm_compute|]. vm_compute. discriminate.
Qed.

Lemma sketch_in_build_path_witness :
  (Canonical (Sample.env Sample.allSucceed) (FullPath Sample.sk)
   = Canonical (Sample.env Sample.allSucceed) (FullPath Sample.sk) ->
   forall b, NewBuilder (Sample.env Sample.allSucceed)
               (Sample.args (FullPath Sample.sk) Sample.overrides) <> Returns b) /\
  NewBuilder (Sample.env Sample.allSucceed)
    (Sample.args (FullPath Sample.sk) Sample.overrides)
  = ReturnsErr ErrSketchCannotBeLocatedInBuildPath.
Proof.
  destruct (sketch_in_build_path (Sample.env Sample.allSucceed)
              (Sample.args (FullPath Sample.sk) Sample.overrides)
              Sample.sk (FullPath Sample.sk) eq_refl eq_refl) as [H1 H2].
  split; [exact H1|].
  destruct (H2 (<["build.mcu" := "atmega2560"]> ∅)
               (Join (FullPath Sample.sk) "sketch")
               (Join (FullPath Sample.sk) "libraries")
               (Join (FullPath Sample.sk) "core")
               eq_refl eq_refl eq_refl eq_refl) as [Heq _].
  apply Heq. reflexivity.
Defined.

(** * Further properties of builder.go *)

(** ** preprocess *)

(** A sequence of steps that returns an error has stopped at a checked step
    that returned it. *)
Lemma Trace_stops env b l s new s' err :
  Trace (map (step_call env b) l) s new s' (Some err) ->
  exists done x rest e,
    l = done ++ x :: rest /\ map e_step new = done ++ [x] /\
    is_unchecked x = false /\
    last new = Some e /\ e ∈ new /\ e_step e = x /\ e_err e = Some err.
Proof.
  intros T.
  destruct (Trace_failure _ _ _ _ _ T)
    as (new1 & e & l1 & c & l2 & -> & El & Hm & Hs & Hc & He & _).
  assert (Hin : c ∈ map (step_call env b) l).
  { rewrite El. apply elem_of_app. right. by left. }
  apply list_elem_of_fmap in Hin as (x & -> & _).
  apply (f_equal (map c_step)) in El. rewrite steps_of_calls, map_app in El.
  exists (map c_step l1), x, (map c_step l2), e. split_and!; try done.
  - rewrite map_app, Hm. cbn [map]. by rewrite Hs.
  - simpl in Hc. by destruct (is_unchecked x).
  - apply last_snoc.
  - apply elem_of_app. right. by left.
Qed.

(** An entry with an error is the entry of an unchecked step, or the last
    one, whose error is returned. *)
Lemma Trace_entry_error env b l s new s' r e err :
  Trace (map (step_call env b) l) s new s' r ->
  e ∈ new -> e_err e = Some err ->
  is_unchecked (e_step e) = true \/ (r = Some err /\ last new = Some e).
Proof.
  intros T Hin Herr.
  destruct (is_unchecked (e_step e)) eqn:Hu; [by left|right].
  destruct (Trace_failed_entry _ _ _ _ _ e err T Hin Herr (checked_calls env b _ e Hu))
    as (-> & new1 & ->).
  by rewrite last_snoc.
Qed.

(** The checked steps of a sequence that returns no error returned none. *)
Lemma Trace_checked_succeeded env b l s new s' e :
  Trace (map (step_call env b) l) s new s' None ->
  e ∈ new -> is_unchecked (e_step e) = false -> e_err e = None.
Proof.
  intros T Hin Hu. destruct (e_err e) as [err|] eqn:Herr; [|done].
  destruct (Trace_entry_error _ _ _ _ _ _ _ e err T Hin Herr) as [?|[? _]]; congruence.
Qed.

(** The sequence that returns an error: the calls made, split at the last
    one. *)
Lemma Trace_stops_at env b l s new s' err :
  Trace (map (step_call env b) l) s new s' (Some err) ->
  exists done x rest before e,
    l = done ++ x :: rest /\ new = before ++ [e] /\
    map e_step before = done /\ e_step e = x /\ e_err e = Some err /\
    is_unchecked x = false /\
    forall e', e' ∈ before -> is_unchecked (e_step e') = false -> e_err e' = None.
Proof.
  intros T.
  destruct (Trace_failure _ _ _ _ _ T)
    as (new1 & e & l1 & c & l2 & -> & El & Hm & Hs & Hc & He & Hall).
  assert (Hin : c ∈ map (step_call env b) l).
  { rewrite El. apply elem_of_app. right. by left. }
  apply list_elem_of_fmap in Hin as (x & -> & _).
  assert (Hbefore : forall e', e' ∈ new1 -> is_unchecked (e_step e') = false ->
                               e_err e' = None).
  { intros e' Hin' Hu. rewrite Forall_forall in Hall.
    destruct (Hall e' Hin') as [?|(c' & Hc' & Hs' & Hk)]; [done|].
    assert (Hin1 : c' ∈ map (step_call env b) l)
      by (rewrite El; apply elem_of_app; by left).
    apply list_elem_of_fmap in Hin1 as (x' & -> & _). simpl in Hs', Hk.
    rewrite Hs', Hu in Hk. done. }
  apply (f_equal (map c_step)) in El. rewrite steps_of_calls, map_app in El.
  exists (map c_step l1), x, (map c_step l2), new1, e. split_and!; try done.
  simpl in Hc. by destruct (is_unchecked x).
Qed.

Lemma after_build_stops (done rest : list Step) (x : Step) :
  after_build false = done ++ x :: rest -> is_unchecked x = false ->
  done ++ [x] = [PrintUsedAndNotUsedLibraries false; printUsedLibraries; exportProjectCMake] \/
  done ++ [x] = after_build false.
Proof.
  unfold after_build. intros E Hu.
  destruct done as [|? [|? [|? [|? [|? ?]]]]]; simplify_eq/=; try done; [by left|by right].
Qed.

(** The log of [Build] holds the calls [Build] made, from the system it
    started on to the system it left. *)
Lemma Build_executed env b s :
  executed env b s (log (Build env b (start s)).1) (sys (Build env b (start s)).1).
Proof.
  destruct (Build_Trace env b (start s) eq_refl) as (pre & s1 & r1 & T1 & HB).
  apply Trace_executed in T1.
  destruct r1 as [err1|]; [|destruct (targetArchitecture b)].
  - by rewrite HB.
  - destruct HB as (bld & s2 & r2 & tl & s3 & r3 & T2 & T3 & HB).
    rewrite HB. cbn [fst log sys start app].
    apply Trace_executed in T2, T3.
    eapply executed_app; [exact T1|]. by eapply executed_app.
  - by rewrite HB.
Qed.

(** X1.  preprocess makes its calls one after the other, each on the system
    the one before it left, and leaves the system the last call left.  With
    a target platform, a preprocess that returns no error has called its
    nine steps in order: MkdirAll, WipeBuildPath, the prebuild hook,
    prepareSketchBuildPath, FindIncludes, the warning about incompatible
    libraries, preprocessSketch, the read of the preprocessed sketch and its
    print.  With a nil target platform it panics once the first four have
    returned no error, and never calls FindIncludes.  A preprocess that
    returns an error has stopped at the step that returned it, which is not
    one of the two whose result is not looked at, and did not panic.  In
    all cases the steps before the last one whose result is looked at
    returned no error. *)
Theorem preprocess_phase_order env b st :
  panicked st = false ->
  exists new,
    log (preprocess env b st).1 = log st ++ new /\
    executed env b (sys st) new (sys (preprocess env b st).1) /\
    ((preprocess env b st).2 = None ->
     (forall e, e ∈ new -> is_unchecked (e_step e) = false -> e_err e = None) /\
     match targetArchitecture b with
     | Some _ =>
         map e_step new = preprocess_phases /\
         panicked (preprocess env b st).1 = false
     | None =>
         map e_step new = [ MkdirAll; WipeBuildPath;
                            RunRecipe "recipe.hooks.prebuild" ".pattern" false;
                            prepareSketchBuildPath ] /\
         panicked (preprocess env b st).1 = true
     end) /\
    (forall err, (preprocess env b st).2 = Some err ->
       panicked (preprocess env b st).1 = false /\
       exists done s rest before e,
         preprocess_phases = done ++ s :: rest /\
         new = before ++ [e] /\
         map e_step before = done /\ e_step e = s /\ e_err e = Some err /\
         is_unchecked s = false /\
         forall e', e' ∈ before -> is_unchecked (e_step e') = false -> e_err e' = None) /\
    (targetArchitecture b = None -> FindIncludes ∉ map e_step new).
Proof.
  intros Hst.
  destruct (preprocess_Trace env b st Hst) as (pre & s1 & T & E).
  exists pre. rewrite E. cbn [fst snd log sys panicked].
  split_and!; [done|by eapply Trace_executed| | |].
  - intros Hr. rewrite Hr in T |- *. split.
    + intros e. by eapply Trace_checked_succeeded.
    + apply Trace_complete in T. unfold preprocess_reached in T.
      by destruct (targetArchitecture b).
  - intros err Hr. rewrite Hr in T |- *. split; [done|].
    destruct (Trace_stops_at _ _ _ _ _ _ _ T)
      as (done & x & rest & before & e & El & -> & Hm & Hs & He & Hu & Hb).
    destruct (preprocess_reached_prefix b) as [more Hmore].
    exists done, x, (rest ++ more), before, e. split_and!; try done.
    by rewrite Hmore, El, <- app_assoc.
  - intros Ht. apply Trace_prefix in T. unfold preprocess_reached in T.
    rewrite Ht in T. intros Hin. apply (prefix_elem_of _ _ _ T) in Hin.
    revert Hin. apply (bool_decide_unpack _). by vm_compute.
Qed.

(** ** Build *)

(** X2.  Build makes its calls one after the other, each on the system the
    one before it left, and leaves the system the last call left; and the
    calls it makes have one of five shapes.  preprocess failed: the steps of
    preprocess up to the failing one, and nothing else.  The target platform
    is nil and the first four steps of preprocess returned no error: those
    four steps, and then a panic.  build failed: all of preprocess, the
    phases of build up to the failing one, and the two reports on the
    libraries, the first one told of the failure.  The CMake export failed:
    all of preprocess and build, the two reports and the export.  Otherwise
    all of preprocess and build, the two reports, the export and the size
    computation.  Build returns an error in the first, third and fourth, and
    panics in the second only. *)
Theorem Build_shape env b s :
  executed env b s (log (Build env b (start s)).1) (sys (Build env b (start s)).1) /\
  ((exists done x rest,
      preprocess_phases = done ++ x :: rest /\
      steps (Build env b (start s)).1 = done ++ [x] /\
      is_Some (Build env b (start s)).2 /\
      panicked (Build env b (start s)).1 = false) \/
   (targetArchitecture b = None /\
    steps (Build env b (start s)).1 =
      [ MkdirAll; WipeBuildPath;
        RunRecipe "recipe.hooks.prebuild" ".pattern" false;
        prepareSketchBuildPath ] /\
    (Build env b (start s)).2 = None /\
    panicked (Build env b (start s)).1 = true) \/
   (exists done x rest,
      phases_of b = done ++ x :: rest /\
      steps (Build env b (start s)).1 =
        preprocess_phases ++ done ++
        [x; PrintUsedAndNotUsedLibraries true; printUsedLibraries] /\
      is_Some (Build env b (start s)).2 /\
      is_Some (targetArchitecture b) /\
      panicked (Build env b (start s)).1 = false) \/
   (steps (Build env b (start s)).1 =
      preprocess_phases ++ phases_of b ++
      [PrintUsedAndNotUsedLibraries false; printUsedLibraries; exportProjectCMake] /\
    is_Some (Build env b (start s)).2 /\
    is_Some (targetArchitecture b) /\
    panicked (Build env b (start s)).1 = false) \/
   (steps (Build env b (start s)).1 =
      preprocess_phases ++ phases_of b ++
      [PrintUsedAndNotUsedLibraries false; printUsedLibraries; exportProjectCMake; size] /\
    is_Some (targetArchitecture b) /\
    panicked (Build env b (start s)).1 = false)).
Proof.
  split; [apply Build_executed|].
  destruct (Build_Trace env b (start s) eq_refl) as (pre & s1 & r1 & T1 & HB).
  destruct r1 as [err1|]; [|destruct (targetArchitecture b) as [arch|] eqn:Ht].
  - left. rewrite HB. cbn [fst snd log start panicked]. unfold steps. cbn [log app].
    destruct (Trace_stops _ _ _ _ _ _ _ T1) as (done & x & rest & e & E & Hs & _).
    destruct (preprocess_reached_prefix b) as [more Hmore].
    exists done, x, (rest ++ more). split_and!; [|done|done|done].
    by rewrite Hmore, E, <- app_assoc.
  - destruct HB as (bld & s2 & r2 & tl & s3 & r3 & T2 & T3 & HB).
    right. right. rewrite HB. unfold steps. cbn [fst snd log start app panicked].
    apply Trace_complete in T1. unfold preprocess_reached in T1. rewrite Ht in T1.
    rewrite !map_app, T1.
    destruct r2 as [err2|].
    + left. rewrite bool_decide_eq_true_2 in T3 by done.
      assert (r3 = None) as -> by (eapply Trace_unchecked, T3; apply unchecked_after_failure).
      apply Trace_complete in T3. rewrite T3.
      destruct (Trace_stops _ _ _ _ _ _ _ T2) as (done & x & rest & e & E & Hs & _).
      exists done, x, rest. split_and!; [done| |done|done|done].
      by rewrite Hs, <- app_assoc.
    + right. rewrite bool_decide_eq_false_2 in T3 by (intros H; by apply H).
      apply Trace_complete in T2. rewrite T2.
      destruct r3 as [err3|].
      * destruct (Trace_stops _ _ _ _ _ _ _ T3) as (done & x & rest & e & E & Hs & Hu & _).
        rewrite Hs.
        destruct (after_build_stops _ _ _ E Hu) as [->| ->]; [left|right]; done.
      * right. apply Trace_complete in T3. by rewrite T3.
  - right. left. rewrite HB. unfold steps. cbn [fst snd log start app panicked].
    apply Trace_complete in T1. unfold preprocess_reached in T1. rewrite Ht in T1.
    done.
Qed.

(** NewBuilder returns a Builder for a nil target platform; its Build calls
    the first four steps of preprocess and panics. *)
Example Build_without_target_platform :
  NewBuilder (Sample.env Sample.allSucceed)
    (Sample.withoutTargetPlatform (Sample.args Sample.buildDir Sample.overrides))
  = Returns Sample.builderWithoutTargetPlatform /\
  steps (Build (Sample.env Sample.allSucceed) Sample.builderWithoutTargetPlatform
           (start Sample.system)).1
  = [ MkdirAll; WipeBuildPath;
      RunRecipe "recipe.hooks.prebuild" ".pattern" false;
      prepareSketchBuildPath ] /\
  panicked (Build (Sample.env Sample.allSucceed) Sample.builderWithoutTargetPlatform
              (start Sample.system)).1 = true.
Proof. split_and!; by vm_compute. Qed.

(** X3.  Build returns an error exactly when a step whose result it checks
    returned one, and the error it returns is the error of such a step.  The
    steps whose result is not looked at (the warning about incompatible
    libraries, the print of the preprocessed sketch, the write of the
    compilation database and the two reports on the libraries) never make
    Build fail. *)
Theorem Build_fails_iff_checked_step_fails env b s :
  (forall err, (Build env b (start s)).2 = Some err ->
     exists e, e ∈ log (Build env b (start s)).1 /\
               e_err e = Some err /\ is_unchecked (e_step e) = false) /\
  ((Build env b (start s)).2 = None <->
   forall e, e ∈ log (Build env b (start s)).1 ->
             is_Some (e_err e) -> is_unchecked (e_step e) = true).
Proof.
  destruct (Build_Trace env b (start s) eq_refl) as (pre & s1 & r1 & T1 & HB).
  assert (Hfail : forall err, (Build env b (start s)).2 = Some err ->
     exists e, e ∈ log (Build env b (start s)).1 /\
               e_err e = Some err /\ is_unchecked (e_step e) = false).
  { intros err Hr. destruct r1 as [err1|]; [|destruct (targetArchitecture b)].
    - rewrite HB in Hr |- *. cbn [fst snd log start app] in Hr |- *. simplify_eq.
      destruct (Trace_stops _ _ _ _ _ _ _ T1) as (done & x & rest & e & _ & _ & Hu & _ & Hin & <- & He).
      by exists e.
    - destruct HB as (bld & s2 & r2 & tl & s3 & r3 & T2 & T3 & HB).
      rewrite HB in Hr |- *. cbn [fst snd log start app] in Hr |- *.
      destruct r2 as [err2|]; simpl in Hr; simplify_eq.
      + destruct (Trace_stops _ _ _ _ _ _ _ T2)
          as (done & x & rest & e & _ & _ & Hu & _ & Hin & <- & He).
        exists e. split_and!; [|done|done].
        apply elem_of_app. right. apply elem_of_app. by left.
      + destruct (Trace_stops _ _ _ _ _ _ _ T3)
          as (done & x & rest & e & _ & _ & Hu & _ & Hin & <- & He).
        exists e. split_and!; [|done|done].
        apply elem_of_app. right. apply elem_of_app. by right.
    - by rewrite HB in Hr. }
  split; [done|]. split.
  - intros Hr e Hin [err He]. destruct r1 as [err1|]; [by rewrite HB in Hr|].
    destruct (targetArchitecture b).
    + destruct HB as (bld & s2 & r2 & tl & s3 & r3 & T2 & T3 & HB).
      rewrite HB in Hr, Hin. cbn [fst snd log start app] in Hr, Hin.
      destruct r2 as [err2|]; [done|]. simpl in Hr. subst r3.
      apply elem_of_app in Hin as [Hin|[Hin|Hin]%elem_of_app].
      * by destruct (Trace_entry_error _ _ _ _ _ _ _ e err T1 Hin He) as [?|[? _]].
      * by destruct (Trace_entry_error _ _ _ _ _ _ _ e err T2 Hin He) as [?|[? _]].
      * by destruct (Trace_entry_error _ _ _ _ _ _ _ e err T3 Hin He) as [?|[? _]].
    + rewrite HB in Hin. cbn [fst log start app] in Hin.
      by destruct (Trace_entry_error _ _ _ _ _ _ _ e err T1 Hin He) as [?|[? _]].
  - intros Hall. destruct (Build env b (start s)).2 as [err|] eqn:Hr; [|done].
    destruct (Hfail err eq_refl) as (e & Hin & He & Hu).
    rewrite (Hall e Hin) in Hu; [done|by exists err].
Qed.

(** ** NewBuilder *)

Section NewBuilderFurther.

Variable env : Env.

(** What the arguments are when [NewBuilder] returns a Builder, and what
    the Builder is. *)
Lemma NewBuilder_inv a b :
  NewBuilder env a = Returns b ->
  exists sk bp custom p1 p2 p3 lm lr out,
    arg_sk a = Some sk /\ arg_buildPath a = Some bp /\
    LoadFromSlice env (arg_requestBuildProperties a) = inr custom /\
    Abs env (Join bp "sketch") = inr p1 /\
    Abs env (Join bp "libraries") = inr p2 /\
    Abs env (Join bp "core") = inr p3 /\
    Canonical env bp <> Canonical env (FullPath sk) /\
    LibrariesLoader env (arg_useCachedLibrariesResolution a)
      (arg_librariesManager a) (arg_builtInLibrariesDirs a)
      (arg_libraryDirs a) (arg_otherLibrariesDirs a)
      (arg_actualPlatform a) (arg_targetPlatform a) = inr (lm, lr, out) /\
    sketch b = sk /\ buildPath b = bp /\
    sketchBuildPath b = p1 /\ librariesBuildPath b = p2 /\ coreBuildPath b = p3 /\
    buildProperties b = properties.Merge (initialBuildProperties a) custom /\
    customBuildProperties b
      = arg_requestBuildProperties a ++ ["build.warn_data_percentage=75"] /\
    clean b = arg_clean a /\
    buildOptionsManager b =
      NewBuildOptionsManager
        (arg_hardwareDirs a) (arg_builtInToolsDirs a)
        (arg_otherLibrariesDirs a) (arg_builtInLibrariesDirs a)
        bp sk (customBuildProperties b) (arg_fqbn a) (arg_clean a)
        (properties.Get "compiler.optimization_flags" (buildProperties b))
        (properties.GetPath "runtime.platform.path" (buildProperties b))
        (properties.GetPath "build.core.path" (buildProperties b)).
Proof.
  unfold NewBuilder. intros H.
  destruct (LoadFromSlice env _) as [?|custom]; [done|].
  destruct (arg_buildPath a) as [bp|]; [|done].
  destruct (Abs env (Join bp "sketch")) as [?|p1] eqn:H1; [done|].
  destruct (Abs env (Join bp "libraries")) as [?|p2] eqn:H2; [done|].
  destruct (Abs env (Join bp "core")) as [?|p3] eqn:H3; [done|].
  destruct (arg_sk a) as [sk|]; [|done].
  case_bool_decide as Hcan; [done|].
  destruct (LibrariesLoader env _ _ _ _ _ _ _) as [?|[[lm lr] out]]; [done|].
  injection H as <-. exists sk, bp, custom, p1, p2, p3, lm, lr, out.
  by split_and!.
Qed.

(** X5.  A Builder that NewBuilder returns holds the sketch and the build
    path it was given, neither being nil, and their canonical forms differ;
    its sketch, libraries and core build paths are the absolute forms of the
    three folders of that name under the build path; its compilation
    database is compile_commands.json under the build path; and its build
    options manager watches the same build path, sketch, clean flag and
    custom properties, and the compiler.optimization_flags of the final build
    properties. *)
Theorem NewBuilder_invariant a b :
  NewBuilder env a = Returns b ->
  arg_sk a = Some (sketch b) /\
  arg_buildPath a = Some (buildPath b) /\
  Canonical env (buildPath b) <> Canonical env (FullPath (sketch b)) /\
  Abs env (Join (buildPath b) "sketch") = inr (sketchBuildPath b) /\
  Abs env (Join (buildPath b) "libraries") = inr (librariesBuildPath b) /\
  Abs env (Join (buildPath b) "core") = inr (coreBuildPath b) /\
  compilationDatabase b = Some (Join (buildPath b) "compile_commands.json") /\
  bom_buildPath (buildOptionsManager b) = buildPath b /\
  bom_sketch (buildOptionsManager b) = sketch b /\
  bom_clean (buildOptionsManager b) = clean b /\
  bom_customBuildProperties (buildOptionsManager b) = customBuildProperties b /\
  bom_compilerOptimizationFlags (buildOptionsManager b)
    = properties.Get "compiler.optimization_flags" (GetBuildProperties b).
Proof.
  intros H. pose proof (NewBuilder_compilationDatabase _ _ _ H) as Hdb.
  destruct (NewBuilder_inv a b H)
    as (sk & bp & custom & p1 & p2 & p3 & lm & lr & out & Hsk & Hbp & _ & H1 & H2 & H3 &
        Hcan & _ & <- & <- & <- & <- & <- & _ & _ & Hclean & Hbom).
  rewrite Hbom. simpl. by split_and!.
Qed.

(** X6.  The errors of NewBuilder.  When NewBuilder returns an error, it is
    the error of the user-supplied properties wrapped as "invalid build
    properties: ...", or the error of making the sketch, libraries or core
    build path absolute, as it is, or ErrSketchCannotBeLocatedInBuildPath
    for a build path and a sketch with the same canonical form, or the error
    of LibrariesLoader, as it is. *)
Theorem NewBuilder_errors a err :
  NewBuilder env a = ReturnsErr err ->
  (exists cause,
     LoadFromSlice env (arg_requestBuildProperties a) = inl cause /\
     err = fmt_Errorf_w "invalid build properties: " cause) \/
  (exists bp name,
     arg_buildPath a = Some bp /\ name ∈ ["sketch"; "libraries"; "core"] /\
     Abs env (Join bp name) = inl err) \/
  (exists bp sk,
     arg_buildPath a = Some bp /\ arg_sk a = Some sk /\
     Canonical env bp = Canonical env (FullPath sk) /\
     err = ErrSketchCannotBeLocatedInBuildPath) \/
  LibrariesLoader env (arg_useCachedLibrariesResolution a)
    (arg_librariesManager a) (arg_builtInLibrariesDirs a)
    (arg_libraryDirs a) (arg_otherLibrariesDirs a)
    (arg_actualPlatform a) (arg_targetPlatform a) = inl err.
Proof.
  unfold NewBuilder. intros H.
  destruct (LoadFromSlice env _) as [cause|custom];
    [left; exists cause; by simplify_eq|].
  destruct (arg_buildPath a) as [bp|]; [|done].
  destruct (Abs env (Join bp "sketch")) as [?|p1] eqn:H1.
  { right. left. exists bp, "sketch". simplify_eq. split_and!; [done|set_solver|done]. }
  destruct (Abs env (Join bp "libraries")) as [?|p2] eqn:H2.
  { right. left. exists bp, "libraries". simplify_eq. split_and!; [done|set_solver|done]. }
  destruct (Abs env (Join bp "core")) as [?|p3] eqn:H3.
  { right. left. exists bp, "core". simplify_eq. split_and!; [done|set_solver|done]. }
  destruct (arg_sk a) as [sk|]; [|done].
  case_bool_decide as Hcan.
  { right. right. left. exists bp, sk. by simplify_eq. }
  destruct (LibrariesLoader env _ _ _ _ _ _ _) as [?|[[lm lr] out]]; [|done].
  right. right. right. by simplify_eq.
Qed.

End NewBuilderFurther.

(** ** The build properties NewBuilder sets *)

Section BuildPropertiesFurther.

Variable env : Env.

(** The properties before the user-supplied ones are merged, with the keys
    NewBuilder sets written out. *)
Lemma initialBuildProperties_unfold a :
  exists m1 m2 : gmap string string,
    m1 = match arg_buildPath a with
         | Some bp => <["build.path" := Path_String bp]> (default ∅ (arg_boardBuildProperties a))
         | None => default ∅ (arg_boardBuildProperties a)
         end /\
    m2 = match arg_sk a with
         | Some sk => <["build.source.path" := Path_String (FullPath sk)]>
                        (<["build.project_name" := Base (MainFile sk)]> m1)
         | None => m1
         end /\
    initialBuildProperties a =
      match m2 !! optimizationFlagsKey (arg_optimizeForDebug a) with
      | Some flags => <["compiler.optimization_flags" := flags]> m2
      | None => m2
      end.
Proof.
  eexists _, _. split; [reflexivity|]. split; [reflexivity|].
  unfold initialBuildProperties, properties.Merge, properties.NewMap, properties.SetPath,
    properties.Set_, properties.GetOk, optimizationFlagsKey.
  assert (E : match arg_boardBuildProperties a with
              | Some boardBuildProperties => boardBuildProperties ∪ ∅
              | None => ∅
              end = default (∅ : gmap string string) (arg_boardBuildProperties a)).
  { destruct (arg_boardBuildProperties a); simpl; [apply (right_id_L ∅ (∪))|done]. }
  rewrite E. by destruct (arg_optimizeForDebug a).
Qed.

(** X8.  Unless the user-supplied properties set it, the builder's
    compiler.optimization_flags is the board's debug variant
    (compiler.optimization_flags.debug) in a debug build and its release
    variant otherwise, when the board defines that variant, and the board's
    own compiler.optimization_flags when it does not.  A variant the user
    supplies is not looked at: the copy is made before the user-supplied
    properties are merged. *)
Theorem optimization_flags_from_board a b (custom : gmap string string) :
  NewBuilder env a = Returns b ->
  LoadFromSlice env (arg_requestBuildProperties a) = inr custom ->
  custom !! "compiler.optimization_flags" = None ->
  GetBuildProperties b !! "compiler.optimization_flags" =
    match default ∅ (arg_boardBuildProperties a)
          !! optimizationFlagsKey (arg_optimizeForDebug a) with
    | Some flags => Some flags
    | None => default ∅ (arg_boardBuildProperties a) !! "compiler.optimization_flags"
    end.
Proof.
  intros HN Hc Hk. rewrite (NewBuilder_buildProperties env a b custom HN Hc).
  unfold properties.Merge. rewrite lookup_union_r by done.
  destruct (initialBuildProperties_unfold a) as (m1 & m2 & E1 & E2 & ->).
  assert (H2 : forall j, j <> "build.path" -> j <> "build.project_name" ->
                         j <> "build.source.path" ->
                         m2 !! j = default ∅ (arg_boardBuildProperties a) !! j).
  { intros j Hj1 Hj2 Hj3. subst m2 m1.
    destruct (arg_sk a), (arg_buildPath a); by rewrite ?lookup_insert_ne by done. }
  rewrite <- !H2 by (by destruct (arg_optimizeForDebug a)).
  destruct (m2 !! optimizationFlagsKey (arg_optimizeForDebug a)); [|done].
  by rewrite lookup_insert_eq.
Qed.

(** X9.  Unless the user-supplied properties set them, the builder's
    build.path is the build path NewBuilder was given, its build.project_name
    the base name of the main file of the sketch and its build.source.path
    the folder of the sketch, whatever the board says. *)
Theorem NewBuilder_sets_paths a b (custom : gmap string string) :
  NewBuilder env a = Returns b ->
  LoadFromSlice env (arg_requestBuildProperties a) = inr custom ->
  (custom !! "build.path" = None ->
   GetBuildProperties b !! "build.path" = Some (Path_String (buildPath b))) /\
  (custom !! "build.project_name" = None ->
   GetBuildProperties b !! "build.project_name" = Some (Base (MainFile (sketch b)))) /\
  (custom !! "build.source.path" = None ->
   GetBuildProperties b !! "build.source.path" = Some (Path_String (FullPath (sketch b)))).
Proof.
  intros HN Hc. rewrite (NewBuilder_buildProperties env a b custom HN Hc).
  destruct (NewBuilder_inv env a b HN)
    as (sk & bp & ? & ? & ? & ? & ? & ? & ? & Hsk & Hbp & _ & _ & _ & _ & _ & _ &
        <- & <- & _).
  unfold properties.Merge.
  destruct (initialBuildProperties_unfold a) as (m1 & m2 & E1 & E2 & ->).
  rewrite Hbp in E1. rewrite Hsk in E2.
  assert (Hflags : forall j (m : gmap string string),
            j <> "compiler.optimization_flags" ->
            match m !! optimizationFlagsKey (arg_optimizeForDebug a) with
            | Some flags => <["compiler.optimization_flags" := flags]> m
            | None => m
            end !! j = m !! j).
  { intros j m Hj. destruct (m !! _); [by rewrite lookup_insert_ne|done]. }
  split_and!; intros Hk; rewrite lookup_union_r by done; rewrite Hflags by done;
    subst m2 m1.
  - by rewrite !lookup_insert_ne, lookup_insert_eq by done.
  - by rewrite lookup_insert_ne, lookup_insert_eq by done.
  - by rewrite lookup_insert_eq.
Qed.

(** X10.  The default build.warn_data_percentage=75 is appended to the
    custom build properties of the builder and of its build options manager,
    after the user-supplied ones, but it is not merged into the build
    properties: there the key has the user-supplied value, or else the
    board's, or none. *)
Theorem warn_data_percentage_default a b (custom : gmap string string) :
  NewBuilder env a = Returns b ->
  LoadFromSlice env (arg_requestBuildProperties a) = inr custom ->
  customBuildProperties b
    = arg_requestBuildProperties a ++ ["build.warn_data_percentage=75"] /\
  bom_customBuildProperties (buildOptionsManager b)
    = arg_requestBuildProperties a ++ ["build.warn_data_percentage=75"] /\
  GetBuildProperties b !! "build.warn_data_percentage" =
    match custom !! "build.warn_data_percentage" with
    | Some v => Some v
    | None => default ∅ (arg_boardBuildProperties a) !! "build.warn_data_percentage"
    end.
Proof.
  intros HN Hc. rewrite (NewBuilder_buildProperties env a b custom HN Hc).
  destruct (NewBuilder_inv env a b HN)
    as (sk & bp & ? & ? & ? & ? & ? & ? & ? & _ & _ & _ & _ & _ & _ & _ & _ &
        _ & _ & _ & _ & _ & _ & Hcbp & _ & Hbom).
  rewrite Hbom. simpl. split_and!; try done.
  unfold properties.Merge. rewrite lookup_union.
  destruct (custom !! "build.warn_data_percentage") as [v|] eqn:Hv.
  - by destruct (initialBuildProperties a !! _).
  - rewrite (left_id None _).
    destruct (initialBuildProperties_unfold a) as (m1 & m2 & E1 & E2 & ->).
    assert (Hm2 : m2 !! "build.warn_data_percentage"
                  = default ∅ (arg_boardBuildProperties a) !! "build.warn_data_percentage").
    { subst m2 m1. destruct (arg_sk a), (arg_buildPath a);
        by rewrite ?lookup_insert_ne by done. }
    destruct (m2 !! optimizationFlagsKey _); [by rewrite lookup_insert_ne|done].
Qed.

End BuildPropertiesFurther.

(** * The errors of package arduino *)

Section ArduinoErrors.

Import arduino.

Variable tr : string -> list Arg -> string.

Implicit Types (e c : Err) (s t : string).

Lemma string_app_assoc s t u : (s +:+ t) +:+ u = s +:+ (t +:+ u).
Proof.
  induction s as [|a s IH]; [done|].
  change (String a ((s +:+ t) +:+ u) = String a (s +:+ (t +:+ u))). by rewrite IH.
Qed.

(** Case analysis on the cause of an error that has one. *)
Local Ltac on_cause tac :=
  match goal with
  | Cause : option Err |- _ => destruct Cause as [c0|]; tac c0
  end.

(** The message of a struct with a cause: a headline, and what [%v] prints
    for the cause. *)
Lemma Error_wraps e c :
  wraps e c ->
  exists headline, Error tr e = Some (headline +:+ ": " +:+ printed (Error tr c)).
Proof.
  intros [Hc Hne].
  destruct e as [x| | | | | | | | | | | | | | | | | | | | | | | | | | | | | | | | | | | | | | | | | | ];
    simpl in Hc |- *; try discriminate Hc;
    try (on_cause ltac:(fun c0 => idtac); [injection Hc as ->|discriminate Hc];
         by eexists).
  by destruct (Hne x).
Qed.


(** X12.  Down a chain of causes made of errors of errors.go, what is
    printed for an error ends with what is printed for every error of the
    chain, whatever the last one is: the root cause is always in the
    text. *)
Theorem Error_ends_with_causes e c :
  rtc wraps e c ->
  exists pre, printed (Error tr e) = pre +:+ printed (Error tr c).
Proof.
  induction 1 as [e|e c1 c Hstep _ [pre IH]].
  - by exists EmptyString.
  - destruct (Error_wraps e c1 Hstep) as [headline ->]. simpl. rewrite IH.
    exists (headline +:+ ": " +:+ pre). by rewrite !string_app_assoc.
Qed.


(** X14.  The status an error converts to carries the message of the error
    and never the code OK; it has details only for
    ProgrammerRequiredForUploadError and
    PlatformAlreadyAtTheLatestVersionError. *)
Theorem ToRPCStatus_message_and_code e st :
  ToRPCStatus tr e = Some (Some st) ->
  Error tr e = Some (Message st) /\
  Code st <> codes.OK /\
  (Details st <> [] ->
   e = ProgrammerRequiredForUploadError \/
   exists platform, e = PlatformAlreadyAtTheLatestVersionError platform).
Proof.
  unfold ToRPCStatus.
  destruct e; intros H; try discriminate H;
    (match type of H with
     | context [Error tr ?x] => destruct (Error tr x) as [msg|] eqn:E
     end; [|discriminate H]);
    simpl in H; injection H as <-; simpl; split_and!; try done; eauto.
Qed.

(** X15.  CantCreateSketchError is the one error type of the file that
    cannot be converted into a status: it has no ToRPCStatus method. *)
Theorem ToRPCStatus_missing e :
  ToRPCStatus tr e = None <->
  (exists x, e = Foreign x) \/ (exists cause, e = CantCreateSketchError cause).
Proof.
  split.
  - destruct e; simpl; intros H; try discriminate H; eauto.
  - by intros [[x ->]|[cause ->]].
Qed.

End ArduinoErrors.

(** * The further properties on the sample inputs *)

Lemma preprocess_phase_order_witness :
  exists new,
    log (preprocess (Sample.env Sample.allSucceed) Sample.builderWithoutTargetPlatform
           (start Sample.system)).1 = log (start Sample.system) ++ new /\
    executed (Sample.env Sample.allSucceed) Sample.builderWithoutTargetPlatform
      (sys (start Sample.system)) new
      (sys (preprocess (Sample.env Sample.allSucceed) Sample.builderWithoutTargetPlatform
              (start Sample.system)).1) /\
    ((preprocess (Sample.env Sample.allSucceed) Sample.builderWithoutTargetPlatform
        (start Sample.system)).2 = None ->
     (forall e, e ∈ new -> is_unchecked (e_step e) = false -> e_err e = None) /\
     match targetArchitecture Sample.builderWithoutTargetPlatform with
     | Some _ =>
         map e_step new = preprocess_phases /\
         panicked (preprocess (Sample.env Sample.allSucceed)
                     Sample.builderWithoutTargetPlatform (start Sample.system)).1 = false
     | None =>
         map e_step new = [ MkdirAll; WipeBuildPath;
                            RunRecipe "recipe.hooks.prebuild" ".pattern" false;
                            prepareSketchBuildPath ] /\
         panicked (preprocess (Sample.env Sample.allSucceed)
                     Sample.builderWithoutTargetPlatform (start Sample.system)).1 = true
     end) /\
    (forall err,
       (preprocess (Sample.env Sample.allSucceed) Sample.builderWithoutTargetPlatform
          (start Sample.system)).2 = Some err ->
       panicked (preprocess (Sample.env Sample.allSucceed)
                   Sample.builderWithoutTargetPlatform (start Sample.system)).1 = false /\
       exists done s rest before e,
         preprocess_phases = done ++ s :: rest /\
         new = before ++ [e] /\
         map e_step before = done /\ e_step e = s /\ e_err e = Some err /\
         is_unchecked s = false /\
         forall e', e' ∈ before -> is_unchecked (e_step e') = false -> e_err e' = None) /\
    (targetArchitecture Sample.builderWithoutTargetPlatform = None ->
     FindIncludes ∉ map e_step new).
Proof.
  apply (preprocess_phase_order (Sample.env Sample.allSucceed)
           Sample.builderWithoutTargetPlatform (start Sample.system)).
  reflexivity.
Defined.

Lemma NewBuilder_invariant_witness :
  arg_sk (Sample.args Sample.buildDir Sample.overrides) = Some (sketch Sample.builder) /\
  arg_buildPath (Sample.args Sample.buildDir Sample.overrides)
    = Some (buildPath Sample.builder) /\
  Canonical (Sample.env Sample.allSucceed) (buildPath Sample.builder)
    <> Canonical (Sample.env Sample.allSucceed) (FullPath (sketch Sample.builder)) /\
  Abs (Sample.env Sample.allSucceed) (Join (buildPath Sample.builder) "sketch")
    = inr (sketchBuildPath Sample.builder) /\
  Abs (Sample.env Sample.allSucceed) (Join (buildPath Sample.builder) "libraries")
    = inr (librariesBuildPath Sample.builder) /\
  Abs (Sample.env Sample.allSucceed) (Join (buildPath Sample.builder) "core")
    = inr (coreBuildPath Sample.builder) /\
  compilationDatabase Sample.builder
    = Some (Join (buildPath Sample.builder) "compile_commands.json") /\
  bom_buildPath (buildOptionsManager Sample.builder) = buildPath Sample.builder /\
  bom_sketch (buildOptionsManager Sample.builder) = sketch Sample.builder /\
  bom_clean (buildOptionsManager Sample.builder) = clean Sample.builder /\
  bom_customBuildProperties (buildOptionsManager Sample.builder)
    = customBuildProperties Sample.builder /\
  bom_compilerOptimizationFlags (buildOptionsManager Sample.builder)
    = properties.Get "compiler.optimization_flags" (GetBuildProperties Sample.builder).
Proof.
  apply (NewBuilder_invariant (Sample.env Sample.allSucceed)
           (Sample.args Sample.buildDir Sample.overrides) Sample.builder).
  vm_compute. reflexivity.
Defined.

Lemma NewBuilder_errors_witness :
  (exists cause,
     LoadFromSlice (Sample.env Sample.allSucceed)
       (arg_requestBuildProperties (Sample.args Sample.buildDir Sample.malformed)) = inl cause /\
     fmt_Errorf_w "invalid build properties: " Sample.invalidLine
     = fmt_Errorf_w "invalid build properties: " cause) \/
  (exists bp name,
     arg_buildPath (Sample.args Sample.buildDir Sample.malformed) = Some bp /\
     name ∈ ["sketch"; "libraries"; "core"] /\
     Abs (Sample.env Sample.allSucceed) (Join bp name)
     = inl (fmt_Errorf_w "invalid build properties: " Sample.invalidLine)) \/
  (exists bp sk,
     arg_buildPath (Sample.args Sample.buildDir Sample.malformed) = Some bp /\
     arg_sk (Sample.args Sample.buildDir Sample.malformed) = Some sk /\
     Canonical (Sample.env Sample.allSucceed) bp
     = Canonical (Sample.env Sample.allSucceed) (FullPath sk) /\
     fmt_Errorf_w "invalid build properties: " Sample.invalidLine
     = ErrSketchCannotBeLocatedInBuildPath) \/
  LibrariesLoader (Sample.env Sample.allSucceed)
    (arg_useCachedLibrariesResolution (Sample.args Sample.buildDir Sample.malformed))
    (arg_librariesManager (Sample.args Sample.buildDir Sample.malformed))
    (arg_builtInLibrariesDirs (Sample.args Sample.buildDir Sample.malformed))
    (arg_libraryDirs (Sample.args Sample.buildDir Sample.malformed))
    (arg_otherLibrariesDirs (Sample.args Sample.buildDir Sample.malformed))
    (arg_actualPlatform (Sample.args Sample.buildDir Sample.malformed))
    (arg_targetPlatform (Sample.args Sample.buildDir Sample.malformed))
  = inl (fmt_Errorf_w "invalid build properties: " Sample.invalidLine).
Proof.
  apply (NewBuilder_errors (Sample.env Sample.allSucceed)
           (Sample.args Sample.buildDir Sample.malformed)
           (fmt_Errorf_w "invalid build properties: " Sample.invalidLine)).
  vm_compute. reflexivity.
Defined.

Lemma optimization_flags_from_board_witness :
  GetBuildProperties Sample.debugBuilder !! "compiler.optimization_flags" = Some "-Og -g3".
Proof.
  apply (optimization_flags_from_board (Sample.env Sample.allSucceed)
           (Sample.debugArgs (Sample.args Sample.buildDir Sample.overrides))
           Sample.debugBuilder (<["build.mcu" := "atmega2560"]> ∅)).
  - vm_compute. reflexivity.
  - reflexivity.
  - vm_compute. reflexivity.
Defined.

Lemma NewBuilder_sets_paths_witness :
  ((<["build.mcu" := "atmega2560"]> ∅ : gmap string string) !! "build.path" = None ->
   GetBuildProperties Sample.builder !! "build.path"
   = Some (Path_String (buildPath Sample.builder))) /\
  ((<["build.mcu" := "atmega2560"]> ∅ : gmap string string) !! "build.project_name" = None ->
   GetBuildProperties Sample.builder !! "build.project_name"
   = Some (Base (MainFile (sketch Sample.builder)))) /\
  ((<["build.mcu" := "atmega2560"]> ∅ : gmap string string) !! "build.source.path" = None ->
   GetBuildProperties Sample.builder !! "build.source.path"
   = Some (Path_String (FullPath (sketch Sample.builder)))).
Proof.
  apply (NewBuilder_sets_paths (Sample.env Sample.allSucceed)
           (Sample.args Sample.buildDir Sample.overrides) Sample.builder
           (<["build.mcu" := "atmega2560"]> ∅)).
  - vm_compute. reflexivity.
  - reflexivity.
Defined.

Lemma warn_data_percentage_default_witness :
  customBuildProperties Sample.builder
    = Sample.overrides ++ ["build.warn_data_percentage=75"] /\
  bom_customBuildProperties (buildOptionsManager Sample.builder)
    = Sample.overrides ++ ["build.warn_data_percentage=75"] /\
  GetBuildProperties Sample.builder !! "build.warn_data_percentage" =
    match (<["build.mcu" := "atmega2560"]> ∅ : gmap string string)
          !! "build.warn_data_percentage" with
    | Some v => Some v
    | None => default ∅ (Some Sample.board) !! "build.warn_data_percentage"
    end.
Proof.
  apply (warn_data_percentage_default (Sample.env Sample.allSucceed)
           (Sample.args Sample.buildDir Sample.overrides) Sample.builder
           (<["build.mcu" := "atmega2560"]> ∅)).
  - vm_compute. reflexivity.
  - reflexivity.
Defined.


Lemma Error_ends_with_causes_witness :
  exists pre,
    arduino.printed
      (arduino.Error arduino.untranslated
         (arduino.CompileFailedError "compile failed"
            (Some (arduino.UnknownFQBNError
                     (Some (arduino.MultipleBoardsDetectedError None))))))
    = pre +:+
      arduino.printed
        (arduino.Error arduino.untranslated (arduino.MultipleBoardsDetectedError None)).
Proof.
  apply (Error_ends_with_causes arduino.untranslated
           (arduino.CompileFailedError "compile failed"
              (Some (arduino.UnknownFQBNError
                       (Some (arduino.MultipleBoardsDetectedError None)))))
           (arduino.MultipleBoardsDetectedError None)).
  eapply rtc_l; [split; [reflexivity|intros x; discriminate]|].
  eapply rtc_l; [split; [reflexivity|intros x; discriminate]|].
  apply rtc_refl.
Defined.


Lemma ToRPCStatus_message_and_code_witness :
  arduino.Error arduino.untranslated (arduino.UnknownFQBNError None) = Some "Unknown FQBN" /\
  arduino.codes.NotFound <> arduino.codes.OK /\
  (@nil arduino.Detail <> [] ->
   arduino.UnknownFQBNError None = arduino.ProgrammerRequiredForUploadError \/
   exists platform,
     arduino.UnknownFQBNError None = arduino.PlatformAlreadyAtTheLatestVersionError platform).
Proof.
  apply (ToRPCStatus_message_and_code arduino.untranslated (arduino.UnknownFQBNError None)
           {| arduino.Code := arduino.codes.NotFound;
              arduino.Message := "Unknown FQBN";
              arduino.Details := [] |}).
  reflexivity.
Defined.
